(** * packet-loss-checker: the probing core of [main.py]

    A shallow embedding of [VALORANTServerTracker] (probe unit, scheduler
    loops, aggregator, comparison analysis, CSV/JSON result store) and the
    properties of the design document that can be stated over it.

    Conventions.
    - Python [float] is IEEE binary64, i.e. Rocq's primitive [float];
      Python [int] values that flow into float positions (the literal [0]
      defaults) are written as the float of the same value, which is what
      every comparison and subtraction below converts them to.
    - [ping3], [csv], [json], [datetime], [statistics] and the console are
      outside the repository: what they hand to the code is an explicit
      argument, an exception they raise included.
    - [console.print] reads its text as rich markup.  It is modelled where
      the text holds a file name or an error message, which the user
      types or a file supplies; region and server names are printed as
      they are. *)

From Stdlib Require Import ZArith List String Ascii Bool Floats Lia.
From stdpp Require Import gmap strings list fin_maps.
Import ListNotations.

Set Warnings "-inexact-float,-register-all".
Local Open Scope string_scope.
Local Open Scope list_scope.

(** ** Exceptions *)

(** What became of a call. *)
Inductive exn :=
| FileNotFoundError
| KeyError
| ValueError (quoted : string)
| TypeError
| AttributeError
| OverflowError
| UnboundLocalError
| ZeroDivisionError
| StatisticsError
| JSONDecodeError
| MarkupError
| IllTyped.
(** [ValueError quoted] is a [ValueError] whose message quotes the text
    [quoted] it could not read (the empty string where it quotes none).
    [IllTyped] is not a Python exception: it marks a run that would store a
    value outside the declared type of a field (None or a number in a [str]
    position), which the records of this file cannot hold. *)

Inductive outcome (A : Type) :=
| Return (a : A)
| Raise (e : exn).
Arguments Return {A} a.
Arguments Raise {A} e.

(** Sequencing: an exception ends the computation. *)
#[global] Instance outcome_bind : MBind outcome :=
  fun A B f m =>
    match m with
    | Return a => f a
    | Raise e => Raise e
    end.

(** ** Python numbers *)
Module Num.

(** [x < y] and [x > y] on floats (false as soon as one side is NaN). *)
Definition lt (x y : float) : bool := PrimFloat.ltb x y.
Definition gt (x y : float) : bool := PrimFloat.ltb y x.

(** [bool(x)]: a float is falsy exactly when it compares equal to zero. *)
Definition truthy (x : float) : bool := negb (PrimFloat.eqb x 0%float).

(** A Python [int] as an (unnormalised) specification float. *)
Definition int_spec (z : Z) : spec_float :=
  match z with
  | Z0 => S754_zero false
  | Zpos p => S754_finite false p 0
  | Zneg p => S754_finite true p 0
  end.

(** [a / b] on two ints: the correctly rounded quotient, and
    [ZeroDivisionError] for a zero divisor. *)
Definition true_div (a b : Z) : outcome float :=
  if (b =? 0)%Z then Raise ZeroDivisionError
  else Return (SF2Prim (SFdiv prec emax (int_spec a) (int_spec b))).

End Num.

(** ** Data model *)

(** [@dataclass PingResult] *)
Record PingResult := mkPingResult {
  timestamp : string;
  server : string;
  latency : option float;
  packet_loss : bool;
  timeout : bool
}.

(** The invariant the design document puts on a result: lost if and only
    if it has no latency. *)
Definition loss_iff_no_latency (r : PingResult) : Prop :=
  packet_loss r = true <-> latency r = None.

(** [@dataclass NetworkStats] *)
Record NetworkStats := mkNetworkStats {
  total_packets : Z;
  lost_packets : Z;
  packet_loss_rate : float;
  min_latency : float;
  max_latency : float;
  avg_latency : float;
  jitter : float
}.

(** The instance attributes of [VALORANTServerTracker]. *)
Record Tracker := mkTracker {
  self_timeout : float;
  interval : float;
  results : list PingResult;
  reference_results : list PingResult;
  is_running : bool;
  current_region : string;
  start_time : option string
}.

Definition VALORANT_SERVERS : list (string * list string) :=
  [ ("Tokyo (Japan)", ["52.77.252.242"; "13.230.149.157"]);
    ("Seoul (Korea)", ["43.201.103.1"; "13.124.145.30"]);
    ("Sydney (Australia)", ["13.236.8.0"; "3.104.90.0"]);
    ("Singapore", ["18.143.118.0"; "13.229.188.0"]);
    ("Mumbai (India)", ["13.234.74.0"; "3.109.44.0"]);
    ("Hong Kong", ["18.162.190.0"; "13.75.118.0"]);
    ("Virginia (US East)", ["52.70.118.0"; "3.208.28.0"]);
    ("California (US West)", ["54.241.191.0"; "13.57.254.0"]);
    ("London (EU West)", ["18.130.91.0"; "3.8.37.0"]);
    ("Frankfurt (EU Central)", ["18.196.142.0"; "3.122.224.0"]) ].

Definition REFERENCE_SERVERS : list (string * list string) :=
  [ ("Discord", ["162.159.130.232"; "162.159.135.232"]);
    ("YouTube (Google)", ["8.8.8.8"; "8.8.4.4"]);
    ("Cloudflare", ["1.1.1.1"; "1.0.0.1"]);
    ("Amazon (AWS)", ["52.95.110.1"; "54.230.0.1"]);
    ("Microsoft", ["13.107.42.14"; "40.76.4.15"]) ].

(** [__init__] with its default arguments. *)
Definition init (timeout0 interval0 : float) : Tracker :=
  {| self_timeout := timeout0; interval := interval0;
     results := []; reference_results := [];
     is_running := false; current_region := "Tokyo (Japan)";
     start_time := None |}.

(** ** Probe unit *)

(** What [ping3.ping(server_ip, timeout=...)] does: it returns the delay in
    seconds, returns [None], or raises. *)
Inductive ping_outcome :=
| Delay (seconds : float)
| NoReply
| PingRaised.

(** [ping_server]; [now] is [datetime.now().isoformat()]. *)
Definition ping_server (now : string) (server_ip : string)
    (reply : ping_outcome) : PingResult :=
  match reply with
  | NoReply =>
      mkPingResult now server_ip None true true
  | Delay latency0 =>
      let latency_ms := (latency0 * 1000)%float in
      mkPingResult now server_ip (Some latency_ms) false false
  | PingRaised =>
      mkPingResult now server_ip None true true
  end.

(** ** Comparison analysis *)

(** The [analysis] dict of [_analyze_comparison]. *)
Record Analysis := mkAnalysis {
  problem_source : string;
  confidence : string;
  recommendation : list string;
  details : list (string * float)
}.

Module Analyze.

Definition set_source (s : string) (a : Analysis) : Analysis :=
  mkAnalysis s (confidence a) (recommendation a) (details a).

Definition set_confidence (c : string) (a : Analysis) : Analysis :=
  mkAnalysis (problem_source a) c (recommendation a) (details a).

Definition extend (l : list string) (a : Analysis) : Analysis :=
  mkAnalysis (problem_source a) (confidence a) (recommendation a ++ l)
             (details a).

Definition set_details (d : list (string * float)) (a : Analysis) : Analysis :=
  mkAnalysis (problem_source a) (confidence a) (recommendation a) d.

Definition initial : Analysis :=
  mkAnalysis "unknown" "low" [] [].

Definition latency_message : string :=
  "VALORANTサーバーへの経路に遅延があります".

(** Lines 715-750: the packet-loss tree. *)
Definition loss_comparison (val_loss ref_loss : float) (analysis : Analysis)
    : Analysis :=
  let loss_diff := (val_loss - ref_loss)%float in
  if Num.gt loss_diff 3 then
    if Num.lt ref_loss 1 then
      extend [ "VALORANTサーバーに問題がある可能性が高いです";
               "別のVALORANTリージョンを試してください";
               "Riot Gamesの公式ステータスページを確認してください" ]
        (set_confidence "high" (set_source "valorant_servers" analysis))
    else
      extend [ "全般的なネットワーク問題の可能性があります";
               "ISPに問い合わせることを検討してください" ]
        (set_confidence "medium" (set_source "network_general" analysis))
  else if Num.lt loss_diff (-1) then
    extend [ "特定の経路に問題がある可能性があります";
             "VPNの使用を検討してください" ]
      (set_confidence "medium" (set_source "network_routing" analysis))
  else
    if Num.gt val_loss 2 then
      extend [ "全般的なネットワーク品質の問題です";
               "Wi-Fi接続の場合は有線接続を試してください";
               "他のデバイスのネットワーク使用量を確認してください" ]
        (set_confidence "high" (set_source "network_general" analysis))
    else
      extend [ "ネットワーク品質は正常範囲内です" ]
        (set_confidence "high" (set_source "no_significant_issue" analysis)).

(** Lines 752-756: the latency comparison. *)
Definition latency_comparison (val_latency ref_latency : float)
    (analysis : Analysis) : Analysis :=
  let latency_diff := (val_latency - ref_latency)%float in
  if Num.gt latency_diff 20 then
    let analysis := extend [latency_message] analysis in
    if String.eqb (problem_source analysis) "no_significant_issue" then
      set_source "valorant_latency" analysis
    else analysis
  else analysis.

Definition details_of (val_loss ref_loss val_latency ref_latency : float)
    : list (string * float) :=
  [ ("packet_loss_diff", (val_loss - ref_loss)%float);
    ("latency_diff", (val_latency - ref_latency)%float);
    ("valorant_loss", val_loss);
    ("reference_loss", ref_loss);
    ("valorant_latency", val_latency);
    ("reference_latency", ref_latency) ].

End Analyze.

(** [_analyze_comparison] *)
Definition _analyze_comparison
    (val_loss ref_loss val_latency ref_latency : float) : Analysis :=
  Analyze.set_details
    (Analyze.details_of val_loss ref_loss val_latency ref_latency)
    (Analyze.latency_comparison val_latency ref_latency
       (Analyze.loss_comparison val_loss ref_loss Analyze.initial)).


(** ** Probe scheduler *)

(** The two [while] loops read the clock and the network.  A run is
    described by what it met: one [pass] per iteration of the [while] whose
    condition held, giving for the probes of that pass the timestamp and
    the reply.  A pass with fewer entries than servers is one that was cut
    short ([is_running] cleared, or Ctrl-C), which ends the run; the script
    running out is the clock reaching [end_time]. *)
Record probe := mkProbe { at_time : string; reply : ping_outcome }.
Definition pass := list probe.

Module Schedule.

(** One traversal of [for server in servers], the log growing by
    [append]; [mk] builds the stored result from the probe.  The boolean
    tells whether the traversal reached the end of [servers]. *)
Fixpoint for_servers {S : Type} (mk : string -> S -> ping_outcome -> PingResult)
    (servers : list S) (answers : pass) (log : list PingResult)
    : list PingResult * bool :=
  match servers, answers with
  | [], _ => (log, true)
  | _ :: _, [] => (log, false)
  | s :: servers', a :: answers' =>
      for_servers mk servers' answers'
        (log ++ [mk (at_time a) s (reply a)])
  end.

Fixpoint while_loop {S : Type} (mk : string -> S -> ping_outcome -> PingResult)
    (servers : list S) (script : list pass) (log : list PingResult)
    : list PingResult :=
  match script with
  | [] => log
  | p :: script' =>
      let '(log', completed) := for_servers mk servers p log in
      if completed then while_loop mk servers script' log' else log'
  end.

(** [dict[key]] on the two server tables. *)
Fixpoint getitem {V : Type} (key : string) (table : list (string * V))
    : option V :=
  match table with
  | [] => None
  | (k, v) :: table' => if String.eqb k key then Some v else getitem key table'
  end.

(** [test_servers[service] = servers[0]]; every list of the table is
    non-empty, so the [IndexError] of an empty one cannot occur. *)
Definition test_servers : list (string * string) :=
  flat_map (fun '(service, servers) =>
              match servers with
              | s :: _ => [(service, s)]
              | [] => []
              end) REFERENCE_SERVERS.

(** [result = self.ping_server(server); result.server = f"{service}|{server}"] *)
Definition reference_probe (now : string) (entry : string * string)
    (r : ping_outcome) : PingResult :=
  let '(service, server_ip) := entry in
  let result := ping_server now server_ip r in
  mkPingResult (timestamp result) (String.append service (String.append "|" server_ip))
               (latency result) (packet_loss result) (timeout result).

End Schedule.

Definition set_results (l : list PingResult) (self : Tracker) : Tracker :=
  mkTracker (self_timeout self) (interval self) l (reference_results self)
            (is_running self) (current_region self) (start_time self).

Definition set_reference_results (l : list PingResult) (self : Tracker) : Tracker :=
  mkTracker (self_timeout self) (interval self) (results self) l
            (is_running self) (current_region self) (start_time self).

Definition set_is_running (b : bool) (self : Tracker) : Tracker :=
  mkTracker (self_timeout self) (interval self) (results self)
            (reference_results self) b (current_region self) (start_time self).

Definition set_current_region (r : string) (self : Tracker) : Tracker :=
  mkTracker (self_timeout self) (interval self) (results self)
            (reference_results self) (is_running self) r (start_time self).

Definition set_start_time (t : option string) (self : Tracker) : Tracker :=
  mkTracker (self_timeout self) (interval self) (results self)
            (reference_results self) (is_running self) (current_region self) t.

(** [run_continuous_test]; [now] is the [datetime.now()] taken on entry.
    The progress lines and the periodic statistics only print.  When the
    [while] body never runs, the [finally] block reads [elapsed_time]
    before any assignment. *)
Definition run_continuous_test (now : string) (script : list pass)
    (self : Tracker) : Tracker * outcome unit :=
  let self := set_is_running true self in
  let self := set_start_time (Some now) self in
  let self := set_results [] self in
  match Schedule.getitem (current_region self) VALORANT_SERVERS with
  | None => (self, Raise KeyError)
  | Some servers =>
      let log := Schedule.while_loop ping_server servers script (results self) in
      let self := set_is_running false (set_results log self) in
      match script with
      | [] => (self, Raise UnboundLocalError)
      | _ :: _ => (self, Return tt)
      end
  end.

(** [test_reference_servers] *)
Definition test_reference_servers (script : list pass) (self : Tracker)
    : Tracker :=
  let self := set_reference_results [] self in
  let log := Schedule.while_loop Schedule.reference_probe
               Schedule.test_servers script (reference_results self) in
  set_reference_results log self.

(** ** Strings *)
Module Str.

Definition lower_ascii (c : ascii) : ascii :=
  let n := nat_of_ascii c in
  if (65 <=? n)%nat && (n <=? 90)%nat then ascii_of_nat (n + 32) else c.

(** [s.lower()].  Only the letters A-Z are mapped; the code compares the
    result with ['true'] and ['y'] alone, and no character outside ASCII
    lowers to one of their letters. *)
Fixpoint lower (s : string) : string :=
  match s with
  | EmptyString => EmptyString
  | String c s' => String (lower_ascii c) (lower s')
  end.

(** [s.endswith(suffix)] *)
Definition endswith (s suffix : string) : bool :=
  let n := String.length s in
  let m := String.length suffix in
  (m <=? n)%nat && String.eqb (substring (n - m) m s) suffix.

(** [sub in s] on two strings. *)
Definition contains (sub s : string) : bool :=
  match index 0 sub s with
  | Some _ => true
  | None => false
  end.

End Str.

(** ** Files *)

(** A decoded JSON document.  Numbers are kept as floats. *)
Inductive json :=
| JNull
| JBool (b : bool)
| JNum (x : float)
| JStr (s : string)
| JArr (l : list json)
| JObj (members : list (string * json)).

(** A file is known by what the two readers make of its text: the rows
    [csv.reader] yields, and the document [json.load] returns ([None] when
    it raises). *)
Record file := mkFile {
  csv_rows : list (list string);
  json_doc : option json
}.

Definition disk := gmap string file.

Section Library.

(** [statistics.mean], and [statistics.stdev] on two values or more: it
    returns the deviation or raises what the library raises on data it
    cannot handle ([AttributeError] on an infinity or a NaN and
    [OverflowError] on a spread too large for a float, in Python 3.11). *)
Variable mean : list float -> float.
Variable stdev : list float -> outcome float.
(** [str(x)] as [csv.writer] applies it to a float cell, and [float(s)],
    [None] standing for its [ValueError]. *)
Variable float_str : float -> string.
Variable float_of_str : string -> option float.
(** [datetime.fromisoformat(s)], a datetime being kept as its
    [isoformat()] text. *)
Variable fromisoformat : string -> option string.
(** The verdict of rich on a text that holds a bracket: [markup tag data]
    tells whether it accepts [data] between [[tag]] and [[/tag]]. *)
Variable markup : string -> string -> bool.

(** ** Metrics aggregator *)

(** [min(l)] and [max(l)] on a non-empty list [x :: l]. *)
Definition py_min (x : float) (l : list float) : float :=
  fold_left (fun m y => if Num.lt y m then y else m) l x.
Definition py_max (x : float) (l : list float) : float :=
  fold_left (fun m y => if Num.gt y m then y else m) l x.

(** [statistics.mean] needs one data point and [statistics.stdev] two. *)
Definition py_mean (l : list float) : outcome float :=
  match l with
  | [] => Raise StatisticsError
  | _ :: _ => Return (mean l)
  end.
Definition py_stdev (l : list float) : outcome float :=
  if (length l <? 2)%nat then Raise StatisticsError else stdev l.

(** The body of the loop of [calculate_stats] for one [server]. *)
Definition server_stats_of (log : list PingResult) (srv : string)
    : outcome NetworkStats :=
  let server_results := filter (fun r => server r = srv) log in
  let total := Z.of_nat (length server_results) in
  let lost :=
    Z.of_nat (length (filter (fun r => packet_loss r = true) server_results)) in
  rate ← (if (0 <? total)%Z
          then q ← Num.true_div lost total; Return (q * 100)%float
          else Return 0%float);
  let successful_pings := omap latency server_results in
  match successful_pings with
  | x :: rest =>
      avg ← py_mean successful_pings;
      jit ← (if (1 <? length successful_pings)%nat
             then py_stdev successful_pings else Return 0%float);
      Return (mkNetworkStats total lost rate
                (py_min x rest) (py_max x rest) avg jit)
  | [] =>
      Return (mkNetworkStats total lost rate 0 0 0 0)
  end.

(** What the loop stores under a server, if its body returns. *)
Definition stored (log : list PingResult) (srv : string)
    : option NetworkStats :=
  match server_stats_of log srv with
  | Return st => Some st
  | Raise _ => None
  end.

(** [for server in ...: server_stats[server] = NetworkStats(...)] *)
Fixpoint stats_loop (log : list PingResult) (servers : list string)
    (server_stats : gmap string NetworkStats)
    : outcome (gmap string NetworkStats) :=
  match servers with
  | [] => Return server_stats
  | srv :: servers' =>
      st ← server_stats_of log srv;
      stats_loop log servers' (<[srv := st]> server_stats)
  end.

(** [calculate_stats]: the loop runs over the set of the servers of the
    log, in the order the set yields them. *)
Definition calculate_stats (self : Tracker)
    : outcome (gmap string NetworkStats) :=
  stats_loop (results self)
    (elements (list_to_set (map server (results self)) : gset string)) ∅.

(** ** Result store: export *)

Definition csv_header : list string :=
  ["Timestamp"; "Server"; "Latency(ms)"; "Packet_Loss"; "Timeout"].

(** [str(b)] *)
Definition bool_str (b : bool) : string :=
  if b then "True" else "False".

(** [result.latency if result.latency else 'N/A'], then the writer's
    [str]. *)
Definition latency_cell (l : option float) : string :=
  match l with
  | Some x => if Num.truthy x then float_str x else "N/A"
  | None => "N/A"
  end.

(** The results whose latency cell reads back as it was written: lost
    ones, and successful ones with a latency that is truthy and whose text
    is read back by [float] as the same number. *)
Definition exportable (r : PingResult) : Prop :=
  match latency r with
  | None => True
  | Some x =>
      Num.truthy x = true /\
      float_str x <> "N/A" /\
      float_of_str (float_str x) = Some x
  end.

Definition csv_row (result : PingResult) : list string :=
  [ timestamp result; server result; latency_cell (latency result);
    bool_str (packet_loss result); bool_str (timeout result) ].

(** The CSV half of [save_results]: nothing is written for an empty log;
    otherwise [filename.csv] receives the header and one row per result.
    (The second file, [filename_stats.json], is not re-read as a log.) *)
Definition save_results (filename : string) (self : Tracker) (d : disk)
    : disk :=
  match results self with
  | [] => d
  | _ :: _ =>
      <[ String.append filename ".csv" :=
           mkFile (csv_header :: map csv_row (results self)) None ]> d
  end.

(** ** Result store: tabular import *)

(** [csv.DictReader]: the first row gives the field names; a later row
    becomes the dict pairing them with its cells, a missing cell being
    [None] and empty rows being skipped.  Of a repeated field name the
    last one wins. *)
Fixpoint zip_row (fieldnames row : list string)
    : list (string * option string) :=
  match fieldnames, row with
  | [], _ => []
  | k :: ks, [] => (k, None) :: zip_row ks []
  | k :: ks, v :: vs => (k, Some v) :: zip_row ks vs
  end.

Definition dict_row (fieldnames row : list string)
    : gmap string (option string) :=
  list_to_map (reverse (zip_row fieldnames row)).

(** [row[key]] *)
Definition row_getitem (key : string) (row : gmap string (option string))
    : outcome (option string) :=
  match row !! key with
  | Some cell => Return cell
  | None => Raise KeyError
  end.

(** [None if cell == 'N/A' else float(cell)] *)
Definition parse_latency (cell : option string) : outcome (option float) :=
  match cell with
  | None => Raise TypeError
  | Some s =>
      if String.eqb s "N/A" then Return None
      else match float_of_str s with
           | Some x => Return (Some x)
           | None => Raise (ValueError s)
           end
  end.

(** [cell.lower() == 'true'] *)
Definition parse_flag (cell : option string) : outcome bool :=
  match cell with
  | None => Raise AttributeError
  | Some s => Return (String.eqb (Str.lower s) "true")
  end.

(** A cell stored in a [str] field as it is. *)
Definition str_field (cell : option string) : outcome string :=
  match cell with
  | None => Raise IllTyped
  | Some s => Return s
  end.

(** The body of [for row in reader]. *)
Definition parse_row (row : gmap string (option string))
    : outcome PingResult :=
  c ← row_getitem "Latency(ms)" row;
  latency0 ← parse_latency c;
  c ← row_getitem "Packet_Loss" row;
  packet_loss0 ← parse_flag c;
  c ← row_getitem "Timeout" row;
  timeout0 ← parse_flag c;
  c ← row_getitem "Timestamp" row;
  timestamp0 ← str_field c;
  c ← row_getitem "Server" row;
  server0 ← str_field c;
  Return (mkPingResult timestamp0 server0 latency0 packet_loss0 timeout0).

Fixpoint read_rows (fieldnames : list string) (rows : list (list string))
    (imported_results : list PingResult) : outcome (list PingResult) :=
  match rows with
  | [] => Return imported_results
  | [] :: rows' => read_rows fieldnames rows' imported_results
  | row :: rows' =>
      result ← parse_row (dict_row fieldnames row);
      read_rows fieldnames rows' (imported_results ++ [result])
  end.

Definition read_csv (rows : list (list string)) : outcome (list PingResult) :=
  match rows with
  | [] => Return []
  | fieldnames :: rows' => read_rows fieldnames rows' []
  end.

(** [_estimate_region_from_servers] *)
Definition _estimate_region_from_servers (self : Tracker) : Tracker :=
  match results self with
  | [] => self
  | _ :: _ =>
      let used_servers : gset string := list_to_set (map server (results self)) in
      match List.find (fun '(region, servers) =>
               existsb (fun s => bool_decide (s ∈ used_servers)) servers)
              VALORANT_SERVERS with
      | Some (region, _) => set_current_region region self
      | None => self
      end
  end.

(** [_import_csv_results] from line 933 on: its first statement, which
    prints the file name, is sequenced by [import_results], its only
    caller.  [choice] is the answer to the replace prompt after
    [.strip().lower()], asked only when a log is present. *)
Definition _import_csv_results (choice : string) (d : disk)
    (filename : string) (self : Tracker) : Tracker * outcome bool :=
  match d !! filename with
  | None => (self, Raise FileNotFoundError)
  | Some f =>
      match read_csv (csv_rows f) with
      | Raise e => (self, Raise e)
      | Return imported_results =>
          let self :=
            match results self with
            | _ :: _ =>
                if negb (String.eqb choice "y")
                then set_results (results self ++ imported_results) self
                else set_results imported_results self
            | [] => set_results imported_results self
            end in
          (_estimate_region_from_servers self, Return true)
      end
  end.

(** ** Result store: statistics import *)

(** [key in v] for a string [key]. *)
Definition json_contains (key : string) (v : json) : outcome bool :=
  match v with
  | JObj members =>
      Return (existsb (fun '(k, _) => String.eqb k key) members)
  | JArr l =>
      Return (existsb (fun x => match x with
                                | JStr s => String.eqb s key
                                | _ => false
                                end) l)
  | JStr s => Return (Str.contains key s)
  | JNull | JBool _ | JNum _ => Raise TypeError
  end.

(** [v[key]] for a string [key]. *)
Definition json_getitem (key : string) (v : json) : outcome json :=
  match v with
  | JObj members =>
      match Schedule.getitem key members with
      | Some x => Return x
      | None => Raise KeyError
      end
  | _ => Raise TypeError
  end.

(** [bool(v)] *)
Definition json_truthy (v : json) : bool :=
  match v with
  | JNull => false
  | JBool b => b
  | JNum x => Num.truthy x
  | JStr s => negb (String.eqb s "")
  | JArr l => negb (Nat.eqb (length l) 0)
  | JObj members => negb (Nat.eqb (length members) 0)
  end.

(** [v > 5] and the like: [v] has to be a number. *)
Definition compare_number (v : json) : outcome unit :=
  match v with
  | JNum _ | JBool _ => Return tt
  | _ => Raise TypeError
  end.

(** [f"{v:.1f}"] *)
Definition format_number (v : json) : outcome unit :=
  match v with
  | JNum _ | JBool _ => Return tt
  | JStr _ => Raise (ValueError "")
  | _ => Raise TypeError
  end.

(** One row of the table of imported statistics. *)
Definition display_stats_row (stats : json) : outcome unit :=
  v ← json_getitem "packet_loss_rate" stats;
  _ ← compare_number v;
  v ← json_getitem "avg_latency" stats;
  _ ← compare_number v;
  _ ← json_getitem "total_packets" stats;
  _ ← json_getitem "lost_packets" stats;
  v ← json_getitem "jitter" stats;
  format_number v.

Fixpoint display_stats_rows (items : list (string * json)) : outcome unit :=
  match items with
  | [] => Return tt
  | (_, stats) :: items' =>
      _ ← display_stats_row stats;
      display_stats_rows items'
  end.

(** [data['server_stats'].items()] and the loop over it. *)
Definition display_server_stats (v : json) : outcome unit :=
  match v with
  | JObj items => display_stats_rows items
  | _ => Raise AttributeError
  end.

(** Code that updates the tracker and may raise. *)
Definition action (A : Type) : Type := Tracker -> Tracker * outcome A.

#[local] Instance action_bind : MBind action :=
  fun A B f m self =>
    match m self with
    | (self', Return a) => f a self'
    | (self', Raise e) => (self', Raise e)
    end.

Definition pure {A : Type} (m : outcome A) : action A :=
  fun self => (self, m).

Definition update (f : Tracker -> Tracker) : action unit :=
  fun self => (f self, Return tt).

Definition when (b : bool) (m : action unit) : action unit :=
  if b then m else pure (Return tt).

(** [self.current_region = test_info['region']] *)
Definition restore_region (test_info : json) : action unit :=
  v ← pure (json_getitem "region" test_info);
  match v with
  | JStr region => update (set_current_region region)
  | _ => pure (Raise IllTyped)
  end.

(** [self.start_time = datetime.fromisoformat(test_info['start_time'])] *)
Definition restore_start_time (test_info : json) : action unit :=
  v ← pure (json_getitem "start_time" test_info);
  match v with
  | JStr text =>
      match fromisoformat text with
      | Some t => update (set_start_time (Some t))
      | None => pure (Raise (ValueError text))
      end
  | _ => pure (Raise TypeError)
  end.

(** [... and test_info['start_time']], reached when the key is there. *)
Definition start_time_given (has_start : bool) (test_info : json)
    : outcome bool :=
  if has_start then
    v ← json_getitem "start_time" test_info;
    Return (json_truthy v)
  else Return false.

Definition restore_test_info (data : json) : action unit :=
  test_info ← pure (json_getitem "test_info" data);
  has_region ← pure (json_contains "region" test_info);
  _ ← when has_region (restore_region test_info);
  has_start ← pure (json_contains "start_time" test_info);
  given ← pure (start_time_given has_start test_info);
  when given (restore_start_time test_info).

Definition show_server_stats (data : json) : action unit :=
  v ← pure (json_getitem "server_stats" data);
  pure (display_server_stats v).

(** [_import_json_stats] from line 975 on: here too the statement that
    prints the file name is sequenced by [import_results]. *)
Definition _import_json_stats (d : disk) (filename : string) : action bool :=
  match d !! filename with
  | None => pure (Raise FileNotFoundError)
  | Some f =>
      match json_doc f with
      | None => pure (Raise JSONDecodeError)
      | Some data =>
          has_info ← pure (json_contains "test_info" data);
          _ ← when has_info (restore_test_info data);
          has_stats ← pure (json_contains "server_stats" data);
          _ ← when has_stats (show_server_stats data);
          pure (Return true)
      end
  end.

(** [console.print] of a text that puts [data] between the tags [[tag]]
    and [[/tag]] of a fixed template (no tag around it when [tag] is
    empty).  rich parses the text as markup only when it holds a bracket;
    a closing tag that closes nothing is a [MarkupError]. *)
Definition console_print (tag data : string) : outcome unit :=
  if Str.contains "[" data then
    if markup tag data then Return tt else Raise MarkupError
  else Return tt.

(** [console.print(f"[red]❌ インポートエラー: {e}[/red]")].  The message
    of a [ValueError] quotes the text that could not be read; the message
    of a [MarkupError] quotes the closing tag that closed nothing, which
    closes nothing here either; the other messages hold no bracket. *)
Definition print_import_error (e : exn) : outcome unit :=
  match e with
  | MarkupError => Raise MarkupError
  | ValueError quoted => console_print "red" quoted
  | _ => Return tt
  end.

(** The first statement of both import functions. *)
Definition announce (name : string) : action unit :=
  pure (console_print "cyan" name).

(** [import_results].  [typed] is the stripped answer to the file name
    prompt, read only when no [filename] is passed.  Both [except]
    clauses print, the first the file name and the second the message of
    the exception, and return [False]; an exception of the printing
    itself leaves the function. *)
Definition import_results (typed choice : string) (d : disk)
    (filename : option string) : action bool :=
  fun self =>
    let asked :=
      match filename with
      | Some name => Some name
      | None => if String.eqb typed "" then None else Some typed
      end in
    match asked with
    | None => (self, Return false)
    | Some name =>
        let '(self', r) :=
          if Str.endswith name ".csv" then
            (_ ← announce name; _import_csv_results choice d name) self
          else if Str.endswith name "_stats.json" || Str.endswith name ".json" then
            (_ ← announce name; _import_json_stats d name) self
          else (self, Return false) in
        match r with
        | Return b => (self', Return b)
        | Raise IllTyped => (self', Raise IllTyped)
        | Raise FileNotFoundError =>
            (self', _ ← console_print "red" name; Return false)
        | Raise e => (self', _ ← print_import_error e; Return false)
        end
    end.

End Library.

(** The latencies [calculate_stats] collects for a server. *)
Definition latencies_of (log : list PingResult) (srv : string) : list float :=
  omap latency (filter (fun r => server r = srv) log).

(** A [statistics.stdev] that handles whatever it is given, as the library
    does on finite values of moderate size. *)
Definition accepting (f : list float -> float) (l : list float)
    : outcome float :=
  Return (f l).

(** ** The threshold tree as the design document words it *)
Module Design.

(** Steps 1-4 of the diagnosis algorithm, read as the returned
    classification. *)
Definition threshold_tree (target_loss reference_loss : float)
    : string * string :=
  let loss_diff := (target_loss - reference_loss)%float in
  if Num.gt loss_diff 3 then
    if Num.lt reference_loss 1 then ("valorant_servers", "high")
    else ("network_general", "medium")
  else if Num.lt loss_diff (-1) then ("network_routing", "medium")
  else if Num.gt target_loss 2 then ("network_general", "high")
  else ("no_significant_issue", "high").

(** The same tree with step 5 applied to its last leaf. *)
Definition threshold_tree_with_latency
    (target_loss reference_loss target_latency reference_latency : float)
    : string * string :=
  let loss_diff := (target_loss - reference_loss)%float in
  let latency_diff := (target_latency - reference_latency)%float in
  if Num.gt loss_diff 3 then
    if Num.lt reference_loss 1 then ("valorant_servers", "high")
    else ("network_general", "medium")
  else if Num.lt loss_diff (-1) then ("network_routing", "medium")
  else if Num.gt target_loss 2 then ("network_general", "high")
  else if Num.gt latency_diff 20 then ("valorant_latency", "high")
  else ("no_significant_issue", "high").

(** What the design document asks of a successful probe: milliseconds,
    a literal zero clamped to one millisecond. *)
Definition clamped_latency (seconds : float) : float :=
  if PrimFloat.eqb seconds 0 then 1%float else (seconds * 1000)%float.

End Design.

(** ** Sample sessions *)
Module Sample.

Definition tokyo1 : string := "52.77.252.242".
Definition tokyo2 : string := "13.230.149.157".

(** A tracker that already holds one result. *)
Definition old_result : PingResult :=
  mkPingResult "2024-05-01T11:59:00" tokyo1 (Some 20%float) false false.
Definition with_log : Tracker := set_results [old_result] (init 3 1).

(** One full pass over the two Tokyo servers: a reply after 20 ms, then
    no reply. *)
Definition one_pass : list pass :=
  [ [ mkProbe "2024-05-01T12:00:00" (Delay 0.02);
      mkProbe "2024-05-01T12:00:01" NoReply ] ].

(** A log where one server never answered and the other did. *)
Definition half_dead : Tracker :=
  set_results
    [ mkPingResult "2024-05-01T12:00:00" tokyo1 None true true;
      mkPingResult "2024-05-01T12:00:01" tokyo2 (Some 21.5%float) false false;
      mkPingResult "2024-05-01T12:00:02" tokyo1 None true true ]
    (init 3 1).

(** A successful probe whose delay was reported as zero. *)
Definition zero_latency : PingResult :=
  mkPingResult "2024-05-01T12:00:00" tokyo1 (Some 0%float) false false.
Definition lost_probe : PingResult :=
  mkPingResult "2024-05-01T12:00:01" tokyo2 None true true.
Definition zero_log : Tracker :=
  set_results [zero_latency; lost_probe] (init 3 1).

(** A statistics file whose [start_time] is a number. *)
Definition bad_stats : json :=
  JObj [ ("test_info",
          JObj [ ("region", JStr "Seoul (Korea)");
                 ("start_time", JNum 1714564800%float) ]) ].
Definition bad_stats_disk : disk :=
  {[ "old_stats.json" := mkFile [] (Some bad_stats) ]}.

(** A statistics file with an entry that lacks its fields. *)
Definition short_stats : json :=
  JObj [ ("test_info", JObj [ ("region", JStr "Seoul (Korea)") ]);
         ("server_stats", JObj [ ("43.201.103.1", JObj []) ]) ].
Definition short_stats_disk : disk :=
  {[ "old_stats.json" := mkFile [] (Some short_stats) ]}.

(** A tabular log with a row that reports neither a latency nor a loss. *)
Definition odd_rows : list (list string) :=
  [ ["Timestamp"; "Server"; "Latency(ms)"; "Packet_Loss"; "Timeout"];
    ["2024-05-01T12:00:00"; "52.77.252.242"; "N/A"; "False"; "False"] ].
Definition odd_disk : disk :=
  {[ "log.csv" := mkFile odd_rows None ]}.

(** Stand-ins for the library functions where a run never calls them. *)
Definition no_float (s : string) : option float := None.
Definition first_or_zero (l : list float) : float := hd 0%float l.

(** A [stdev] that refuses an infinity, as Python 3.11 does. *)
Definition finite_only (l : list float) : outcome float :=
  if existsb PrimFloat.is_infinity l then Raise AttributeError
  else Return (first_or_zero l).

(** A log as an import can build it: one Tokyo server never answered, the
    other has an infinite latency among its two. *)
Definition infinite_log : Tracker :=
  set_results
    [ mkPingResult "2024-05-01T12:00:00" tokyo1 None true true;
      mkPingResult "2024-05-01T12:00:01" tokyo2 (Some infinity) false false;
      mkPingResult "2024-05-01T12:00:02" tokyo2 (Some 1%float) false false ]
    (init 3 1).

End Sample.

(** * The rest of the tracker *)

(** ** Comparison with the reference services *)

(** One entry of [reference_stats]. *)
Record ServiceStats := mkServiceStats {
  service_loss_rate : float;
  service_avg_latency : float;
  service_total_packets : Z
}.

(** The dict [compare_with_reference_servers] returns when it compares. *)
Record Comparison := mkComparison {
  valorant_avg_packet_loss : float;
  valorant_avg_latency : float;
  reference_avg_packet_loss : float;
  reference_avg_latency : float;
  reference_services : list (string * ServiceStats);
  comparison_analysis : Analysis
}.

(** Either [{"error": message}] or the comparison. *)
Inductive comparison_result :=
| CompareError (message : string)
| Compared (c : Comparison).

Section Comparing.
Variable mean : list float -> float.
Variable stdev : list float -> outcome float.

(** [r.server.startswith(f"{service}|")] *)
Definition of_service (service : string) (r : PingResult) : bool :=
  String.prefix (String.append service "|") (server r).

(** [valorant_stats.values()]: the dict keeps the order in which the loop
    of [calculate_stats] stored its entries. *)
Definition stats_values (self : Tracker)
    (server_stats : gmap string NetworkStats) : list NetworkStats :=
  omap (fun srv => server_stats !! srv)
       (elements (list_to_set (map server (results self)) : gset string)).

(** [statistics.mean(data) if data else 0] *)
Definition mean_or_zero (data : list float) : outcome float :=
  match data with
  | [] => Return 0%float
  | _ :: _ => py_mean mean data
  end.

(** [[x for x in l if x > 0]] *)
Definition positive_only (l : list float) : list float :=
  filter (fun x => Num.gt x 0 = true) l.

(** The body of [for service in self.REFERENCE_SERVERS.keys()]: nothing is
    stored for a service without results. *)
Definition service_stats_of (log : list PingResult) (service : string)
    : outcome (option ServiceStats) :=
  let service_results := filter (fun r => of_service service r = true) log in
  match service_results with
  | [] => Return None
  | _ :: _ =>
      let total := Z.of_nat (length service_results) in
      let lost :=
        Z.of_nat (length (filter (fun r => packet_loss r = true)
                            service_results)) in
      rate ← (if (0 <? total)%Z
              then q ← Num.true_div lost total; Return (q * 100)%float
              else Return 0%float);
      avg ← mean_or_zero (omap latency service_results);
      Return (Some (mkServiceStats rate avg total))
  end.

Definition store_service (service : string) (st : option ServiceStats)
    (reference_stats : list (string * ServiceStats))
    : list (string * ServiceStats) :=
  match st with
  | Some s => reference_stats ++ [(service, s)]
  | None => reference_stats
  end.

Fixpoint reference_loop (log : list PingResult) (services : list string)
    (reference_stats : list (string * ServiceStats))
    : outcome (list (string * ServiceStats)) :=
  match services with
  | [] => Return reference_stats
  | service :: services' =>
      st ← service_stats_of log service;
      reference_loop log services' (store_service service st reference_stats)
  end.

(** The end of [compare_with_reference_servers], once the averages of the
    target group and the statistics of the services are there. *)
Definition compare_averages (valorant_avg_loss valorant_avg_latency0 : float)
    (reference_stats : list (string * ServiceStats))
    : outcome comparison_result :=
  reference_avg_loss ←
    py_mean mean (map (fun st => service_loss_rate (snd st)) reference_stats);
  reference_avg_latency0 ←
    mean_or_zero
      (positive_only
         (map (fun st => service_avg_latency (snd st)) reference_stats));
  Return (Compared
            (mkComparison valorant_avg_loss valorant_avg_latency0
               reference_avg_loss reference_avg_latency0 reference_stats
               (_analyze_comparison valorant_avg_loss reference_avg_loss
                  valorant_avg_latency0 reference_avg_latency0))).

(** The middle of it: the averages of the target group, then the loop over
    the services. *)
Definition compare_values (values : list NetworkStats)
    (reference_log : list PingResult) : outcome comparison_result :=
  valorant_avg_loss ← py_mean mean (map packet_loss_rate values);
  valorant_avg_latency0 ← mean_or_zero (positive_only (map avg_latency values));
  reference_stats ←
    reference_loop reference_log (map fst REFERENCE_SERVERS) [];
  match reference_stats with
  | [] =>
      Return (CompareError "一般サービスの統計データを計算できませんでした")
  | _ :: _ =>
      compare_averages valorant_avg_loss valorant_avg_latency0 reference_stats
  end.

(** [compare_with_reference_servers] *)
Definition compare_with_reference_servers (self : Tracker)
    : outcome comparison_result :=
  match reference_results self with
  | [] => Return (CompareError "一般サービスのテスト結果がありません")
  | _ :: _ =>
      match results self with
      | [] => Return (CompareError "VALORANTサーバーのテスト結果がありません")
      | _ :: _ =>
          valorant_stats ← calculate_stats mean stdev self;
          match stats_values self valorant_stats with
          | [] =>
              Return (CompareError
                        "VALORANTサーバーの統計データを計算できませんでした")
          | values => compare_values values (reference_results self)
          end
      end
  end.

End Comparing.

(** ** The log of an uninterrupted run *)

(** What a pass that is not cut short appends. *)
Definition pass_results {S : Type}
    (mk : string -> S -> ping_outcome -> PingResult)
    (servers : list S) (p : pass) : list PingResult :=
  zip_with (fun s a => mk (at_time a) s (reply a)) servers p.

(** What a run leaves in its log, read off the script: every pass gives
    one result per server it reached, in the order of the servers, and the
    run ends with the first pass that did not reach them all. *)
Fixpoint run_log {S : Type} (mk : string -> S -> ping_outcome -> PingResult)
    (servers : list S) (script : list pass) : list PingResult :=
  match script with
  | [] => []
  | p :: script' =>
      pass_results mk servers p ++
      (if (length servers <=? length p)%nat
       then run_log mk servers script' else [])
  end.

(** ** Choosing the region *)


(** Menu entry 1 of [main]; [region_choice] is what [int(console.input(...))]
    gave, a [ValueError] included.  An index that passed the bounds test is
    always inside [regions]. *)
Definition select_region (region_choice : outcome Z) (self : Tracker)
    : Tracker :=
  let regions := map fst VALORANT_SERVERS in
  match region_choice with
  | Return n =>
      if (1 <=? n)%Z && (n <=? Z.of_nat (length regions))%Z then
        match regions !! Z.to_nat (n - 1) with
        | Some region => set_current_region region self
        | None => self
        end
      else self
  | Raise _ => self
  end.

(** ** Export and import, end to end *)

(** What export and import make of one result: a latency that tests false
    is written as N/A and comes back as [None]. *)
Definition reimported (r : PingResult) : PingResult :=
  mkPingResult (timestamp r) (server r)
    (match latency r with
     | Some x => if Num.truthy x then Some x else None
     | None => None
     end)
    (packet_loss r) (timeout r).

(** The text [str] writes for a latency that tests true is read back by
    [float] as the same number, and is not the marker. *)
Definition readable (float_str : float -> string)
    (float_of_str : string -> option float) (r : PingResult) : Prop :=
  forall x, latency r = Some x -> Num.truthy x = true ->
            float_str x <> "N/A" /\ float_of_str (float_str x) = Some x.

(** Two trackers that differ at most in region and start time. *)
Definition same_logs (a b : Tracker) : Prop :=
  results a = results b /\
  reference_results a = reference_results b /\
  is_running a = is_running b /\
  self_timeout a = self_timeout b /\
  interval a = interval b.

(** An action that leaves both logs and the settings alone. *)
Definition keeps_logs {A : Type} (m : action A) : Prop :=
  forall self, same_logs (fst (m self)) self.

(** [float(n)] for an int. *)
Definition int_float (n : Z) : float :=
  SF2Prim (binary_normalize prec emax n 0 false).

(** [asdict(stat)] as [json.dump] writes it. *)
Definition stats_json (st : NetworkStats) : json :=
  JObj [ ("total_packets", JNum (int_float (total_packets st)));
         ("lost_packets", JNum (int_float (lost_packets st)));
         ("packet_loss_rate", JNum (packet_loss_rate st));
         ("min_latency", JNum (min_latency st));
         ("max_latency", JNum (max_latency st));
         ("avg_latency", JNum (avg_latency st));
         ("jitter", JNum (jitter st)) ].

Section Exporting.
Variable mean : list float -> float.
Variable stdev : list float -> outcome float.
Variable markup : string -> string -> bool.
(** What [csv.reader] would make of the text of a JSON document. *)
Variable csv_view : json -> list (list string).
(** [(datetime.now() - start_time).total_seconds() / 60]: the subtraction
    is a [TypeError] when [start_time] carries a UTC offset, which a
    [start_time] read by [fromisoformat] can. *)
Variable elapsed_minutes : string -> outcome float.

(** [stats.items()], in the order the loop of [calculate_stats] stored. *)
Definition stats_items (self : Tracker)
    (server_stats : gmap string NetworkStats)
    : list (string * NetworkStats) :=
  omap (fun srv => match server_stats !! srv with
                   | Some st => Some (srv, st)
                   | None => None
                   end)
       (elements (list_to_set (map server (results self)) : gset string)).

(** [... if self.start_time else 0] *)
Definition duration_of (self : Tracker) : outcome float :=
  match start_time self with
  | Some t => elapsed_minutes t
  | None => Return 0%float
  end.

(** The document of [filename_stats.json]. *)
Definition stats_document (duration_minutes : float) (self : Tracker)
    (server_stats : gmap string NetworkStats) : json :=
  JObj [ ("test_info",
          JObj [ ("region", JStr (current_region self));
                 ("start_time",
                  match start_time self with
                  | Some t => JStr t
                  | None => JNull
                  end);
                 ("duration_minutes", JNum duration_minutes) ]);
         ("server_stats",
          JObj (map (fun entry => (fst entry, stats_json (snd entry)))
                  (stats_items self server_stats))) ].

(** The JSON half of [save_results], the CSV file being written.  The
    statistics are computed first; the file is opened, and so emptied,
    before the document is built, so an exception of the duration leaves
    an empty file; the two file names are printed last. *)
Definition save_results_json (filename : string) (self : Tracker) (d : disk)
    : disk * outcome unit :=
  match calculate_stats mean stdev self with
  | Raise e => (d, Raise e)
  | Return stats =>
      let json_file := String.append filename "_stats.json" in
      match duration_of self with
      | Raise e => (<[ json_file := mkFile [] None ]> d, Raise e)
      | Return duration_minutes =>
          let doc := stats_document duration_minutes self stats in
          (<[ json_file := mkFile (csv_view doc) (Some doc) ]> d,
           _ ← console_print markup "" (String.append filename ".csv");
           console_print markup "" json_file)
      end
  end.

(** [save_results] with a file name: nothing for an empty log, otherwise
    the CSV file, then the JSON file. *)
Definition save_results_files (float_str : float -> string)
    (filename : string) (self : Tracker) (d : disk) : disk * outcome unit :=
  match results self with
  | [] => (d, Return tt)
  | _ :: _ =>
      save_results_json filename self (save_results float_str filename self d)
  end.

End Exporting.

(** ** Console statistics *)

Section Displaying.
Variable mean : list float -> float.
Variable stdev : list float -> outcome float.
(** [sum(l)] on floats. *)
Variable fsum : list float -> float.

(** [statistics.mean] on values that may be [None]: a [None] among them is
    a [TypeError]. *)
Fixpoint all_floats (l : list (option float)) : option (list float) :=
  match l with
  | [] => Some []
  | Some x :: l' =>
      match all_floats l' with
      | Some xs => Some (x :: xs)
      | None => None
      end
  | None :: _ => None
  end.

Definition mean_of (l : list (option float)) : outcome float :=
  match all_floats l with
  | Some xs => py_mean mean xs
  | None => Raise TypeError
  end.

(** [l[-5:] if len(l) >= 5 else l] *)
Definition last_five {A : Type} (l : list A) : list A :=
  if (5 <=? length l)%nat then drop (length l - 5) l else l.

(** The servers of a log in the order of their first appearance, as the
    keys of the dict [_display_intermediate_stats] builds. *)
Fixpoint first_seen (seen : list string) (l : list PingResult) : list string :=
  match l with
  | [] => seen
  | r :: l' =>
      if bool_decide (server r ∈ seen) then first_seen seen l'
      else first_seen (seen ++ [server r]) l'
  end.

(** One row of the table of [_display_intermediate_stats]. *)
Definition intermediate_row (log : list PingResult) (srv : string)
    : outcome unit :=
  let mine := filter (fun r => server r = srv) log in
  let total := Z.of_nat (length mine) in
  let lost :=
    Z.of_nat (length (filter (fun r => packet_loss r = true) mine)) in
  let latencies :=
    map latency (filter (fun r => packet_loss r = false) mine) in
  _ ← (if (0 <? total)%Z
       then q ← Num.true_div lost total; Return (q * 100)%float
       else Return 0%float);
  _ ← match latencies with
      | [] => Return 0%float
      | _ :: _ => mean_of latencies
      end;
  Return tt.

Fixpoint intermediate_rows (log : list PingResult) (servers : list string)
    : outcome unit :=
  match servers with
  | [] => Return tt
  | srv :: servers' =>
      _ ← intermediate_row log srv;
      intermediate_rows log servers'
  end.

(** [_display_intermediate_stats] *)
Definition _display_intermediate_stats (log : list PingResult)
    : outcome unit :=
  match log with
  | [] => Return tt
  | _ :: _ => intermediate_rows log (first_seen [] log)
  end.

(** The line of [_display_realtime_stats]: average, minimum and maximum of
    the results that are not lost, and the average of the last five. *)
Definition realtime_line (current_results : list PingResult) : outcome unit :=
  let total := Z.of_nat (length current_results) in
  let lost :=
    Z.of_nat (length (filter (fun r => packet_loss r = true)
                        current_results)) in
  let successful_pings :=
    filter (fun r => packet_loss r = false) current_results in
  if (0 <? total)%Z then
    _ ← Num.true_div lost total;
    match successful_pings with
    | [] => Return tt
    | _ :: _ =>
        _ ← mean_of (map latency successful_pings);
        match last_five successful_pings with
        | [] => Return tt
        | recent => _ ← mean_of (map latency recent); Return tt
        end
    end
  else Return tt.

(** [_display_realtime_stats] *)
Definition _display_realtime_stats (current_results : list PingResult)
    (elapsed_seconds : Z) : outcome unit :=
  match current_results with
  | [] => Return tt
  | _ :: _ =>
      _ ← realtime_line current_results;
      if (0 <? elapsed_seconds)%Z && (elapsed_seconds mod 300 =? 0)%Z
      then _display_intermediate_stats current_results
      else Return tt
  end.

(** A result the console statistics can average: it is lost, or it has a
    latency. *)
Definition averageable (r : PingResult) : bool :=
  packet_loss r || bool_decide (is_Some (latency r)).

(** [x / n] for a float and an int. *)
Definition float_div_int (x : float) (n : Z) : outcome float :=
  if (n =? 0)%Z then Raise ZeroDivisionError
  else Return (x / int_float n)%float.

(** The two lists [analyze_issues] prints. *)
Record Findings := mkFindings {
  issues : list string;
  recommendations : list string
}.

Definition add_issue (issue : string) (recs : list string) (f : Findings)
    : Findings :=
  mkFindings (issues f ++ [issue]) (recommendations f ++ recs).

(** The packet-loss, latency and jitter tests of [analyze_issues]. *)
Definition loss_findings (overall_loss_rate : float) (f : Findings)
    : Findings :=
  if Num.gt overall_loss_rate 5 then
    add_issue "❌ 高いパケットロス率が検出されました"
      [ "ネットワーク接続の確認"; "ルーターの再起動";
        "有線接続への変更を検討"; "ISPへの問い合わせ" ] f
  else if Num.gt overall_loss_rate 1 then
    add_issue "⚠️ 軽微なパケットロスが検出されました"
      [ "WiFi信号強度の確認"; "他のネットワーク使用量の確認" ] f
  else f.

Definition latency_findings (overall_avg_latency : float) (f : Findings)
    : Findings :=
  if Num.gt overall_avg_latency 100 then
    add_issue "❌ 高いレイテンシーが検出されました"
      [ "地理的に近いサーバーの選択"; "VPNの無効化";
        "ネットワーク最適化ツールの使用" ] f
  else if Num.gt overall_avg_latency 50 then
    add_issue "⚠️ やや高いレイテンシーです"
      [ "ゲーム設定でのサーバー選択の見直し" ] f
  else f.

Definition jitter_findings (stats : list NetworkStats) (f : Findings)
    : Findings :=
  match filter (fun s => Num.gt (jitter s) 10 = true) stats with
  | [] => f
  | _ :: _ =>
      add_issue "❌ 不安定な接続（高ジッター）が検出されました"
        [ "ネットワーク帯域の使用量確認"; "QoS設定の調整";
          "ゲーム専用ネットワークの検討" ] f
  end.

(** The two overall figures of [analyze_issues]. *)
Definition overall_loss_rate (stats : list NetworkStats) : outcome float :=
  float_div_int (fsum (map packet_loss_rate stats))
                (Z.of_nat (length stats)).

Definition overall_avg_latency (stats : list NetworkStats) : outcome float :=
  match positive_only (map avg_latency stats) with
  | [] => Return 0%float
  | latency_values =>
      float_div_int (fsum latency_values)
                    (Z.of_nat (length latency_values))
  end.

(** [analyze_issues] on [stats.values()]; [None] is the early return on
    empty statistics. *)
Definition analyze_issues (stats : list NetworkStats)
    : outcome (option Findings) :=
  match stats with
  | [] => Return None
  | _ :: _ =>
      loss ← overall_loss_rate stats;
      lat ← overall_avg_latency stats;
      Return (Some (jitter_findings stats
                      (latency_findings lat
                         (loss_findings loss (mkFindings [] [])))))
  end.

(** [display_results]: nothing for an empty log, otherwise the table and
    the analysis. *)
Definition display_results (self : Tracker) : outcome (option Findings) :=
  match results self with
  | [] => Return None
  | _ :: _ =>
      stats ← calculate_stats mean stdev self;
      analyze_issues (stats_values self stats)
  end.

End Displaying.

(** ** Demonstration data ([demo.py]) *)

(** The random numbers one iteration of [generate_demo_data] draws:
    [uniform(15, 35)], [random()], and when no loss is simulated a second
    [random()] and then [uniform(50, 200)] or [uniform(-5, 5)]. *)
Record demo_draw := mkDemoDraw {
  base_latency : float;
  loss_draw : float;
  spike_draw : float;
  extra_draw : float
}.

(** [max(1, x)] *)
Definition at_least_one (x : float) : float :=
  if Num.gt x 1 then x else 1%float.

Definition demo_result (ts : string) (srv : string) (d : demo_draw)
    : PingResult :=
  if Num.lt (loss_draw d) 0.02 then
    mkPingResult ts srv None true true
  else if Num.lt (spike_draw d) 0.05 then
    mkPingResult ts srv (Some (base_latency d + extra_draw d)%float)
                 false false
  else
    mkPingResult ts srv
                 (Some (at_least_one (base_latency d + extra_draw d)%float))
                 false false.

(** [generate_demo_data]; [stamp second] is the isoformat of
    [start_time + timedelta(seconds=second)] and [draws second i] what the
    iteration for the [i]-th server of that second draws. *)
Definition generate_demo_data (stamp : nat -> string)
    (draws : nat -> nat -> demo_draw) (duration_minutes : nat)
    (region : string) : list PingResult :=
  match Schedule.getitem region VALORANT_SERVERS with
  | None => []
  | Some servers =>
      flat_map (fun second =>
                  imap (fun i srv => demo_result (stamp second) srv
                                       (draws second i)) servers)
               (seq 0 (duration_minutes * 60))
  end.

(** The four services [generate_reference_demo_data] draws for. *)
Definition demo_reference_servers : list (string * string) :=
  [ ("Discord", "162.159.130.232");
    ("YouTube (Google)", "8.8.8.8");
    ("Cloudflare", "1.1.1.1");
    ("Amazon (AWS)", "52.95.110.1") ].

Definition reference_demo_result (ts : string) (entry : string * string)
    (d : demo_draw) : PingResult :=
  let '(service, server_ip) := entry in
  let label := String.append service (String.append "|" server_ip) in
  if Num.lt (loss_draw d) 0.005 then
    mkPingResult ts label None true true
  else
    mkPingResult ts label
                 (Some (at_least_one (base_latency d + extra_draw d)%float))
                 false false.

(** [generate_reference_demo_data], with [stamp] and [draws] as in
    [generate_demo_data]. *)
Definition generate_reference_demo_data (stamp : nat -> string)
    (draws : nat -> nat -> demo_draw) (duration_minutes : nat)
    : list PingResult :=
  flat_map (fun second =>
              imap (fun i entry => reference_demo_result (stamp second) entry
                                     (draws second i))
                   demo_reference_servers)
           (seq 0 (duration_minutes * 60)).

(** The tracker [run_demo] sets up before it displays anything. *)
Definition run_demo_tracker (demo_results reference_demo_data : list PingResult)
    (start : string) : Tracker :=
  set_start_time (Some start)
    (set_current_region "Tokyo (Japan)"
       (set_reference_results reference_demo_data
          (set_results demo_results (init 3 1)))).

(** * Properties *)

(** ** Probe unit *)

(** C9: every result built by the probe unit has [timeout] equal to
    [packet_loss], both being true exactly on the no-reply path and on the
    exception path; relabelling by the reference loop keeps it, and so the
    Timeout cell of an exported row always repeats its Packet_Loss cell. *)
Theorem ping_server_timeout_is_packet_loss :
  forall float_str now server_ip r entry,
    let result := ping_server now server_ip r in
    let result' := Schedule.reference_probe now entry r in
    timeout result = packet_loss result /\
    packet_loss result = match r with Delay _ => false | _ => true end /\
    timeout result' = packet_loss result' /\
    nth 4 (csv_row float_str result) "" = nth 3 (csv_row float_str result) "" /\
    nth 4 (csv_row float_str result') "" = nth 3 (csv_row float_str result') "".
Proof.
  intros float_str now server_ip r [service ip].
  destruct r; cbn; auto.
Qed.

(** ** Comparison analysis *)

Ltac split_tree :=
  unfold _analyze_comparison, Analyze.latency_comparison,
    Analyze.loss_comparison, Design.threshold_tree_with_latency;
  cbn zeta;
  repeat match goal with
         | |- context [Num.gt ?a ?b] => destruct (Num.gt a b) eqn:?
         | |- context [Num.lt ?a ?b] => destruct (Num.lt a b) eqn:?
         end;
  cbn.

(** C10: the analysis returned by the comparison has its [problem_source]
    among the five classifications and its [confidence] among high and
    medium: the placeholders 'unknown' and 'low' never survive. *)
Theorem analysis_placeholders_overwritten :
  forall val_loss ref_loss val_latency ref_latency,
    let analysis :=
      _analyze_comparison val_loss ref_loss val_latency ref_latency in
    In (problem_source analysis)
       ["valorant_servers"; "network_general"; "network_routing";
        "no_significant_issue"; "valorant_latency"] /\
    In (confidence analysis) ["high"; "medium"] /\
    String.eqb (problem_source analysis) "unknown" = false /\
    String.eqb (confidence analysis) "low" = false.
Proof.
  intros. subst analysis. split_tree; repeat split; auto 6.
Qed.

(** C7: when the latency difference exceeds 20 the latency recommendation
    is appended to those of the packet-loss tree, the confidence is kept,
    and the source becomes 'valorant_latency' exactly when the tree had
    answered 'no_significant_issue'; any other answer is kept. *)
Theorem latency_demotion_only_from_no_issue :
  forall val_loss ref_loss val_latency ref_latency,
    Num.gt (val_latency - ref_latency)%float 20 = true ->
    let primary :=
      Analyze.loss_comparison val_loss ref_loss Analyze.initial in
    let analysis :=
      _analyze_comparison val_loss ref_loss val_latency ref_latency in
    recommendation analysis
      = recommendation primary ++ [Analyze.latency_message] /\
    confidence analysis = confidence primary /\
    (problem_source primary = "no_significant_issue" ->
     problem_source analysis = "valorant_latency") /\
    (problem_source primary <> "no_significant_issue" ->
     problem_source analysis = problem_source primary) /\
    (problem_source analysis = "valorant_latency" ->
     problem_source primary = "no_significant_issue").
Proof.
  intros val_loss ref_loss val_latency ref_latency Hgt primary analysis.
  subst primary analysis.
  unfold _analyze_comparison, Analyze.latency_comparison.
  cbn zeta. rewrite Hgt.
  unfold Analyze.loss_comparison. cbn zeta.
  repeat match goal with
         | |- context [Num.gt ?a ?b] => destruct (Num.gt a b) eqn:?
         | |- context [Num.lt ?a ?b] => destruct (Num.lt a b) eqn:?
         end;
  cbn; repeat split; intros; try reflexivity; try congruence; try discriminate.
Qed.

(** The rule at a latency gap of 35 ms: demotion from the no-issue leaf,
    none from 'valorant_servers'. *)
Lemma latency_demotion_only_from_no_issue_witness :
  Num.gt (50 - 15)%float 20 = true /\
  problem_source (_analyze_comparison 1 0.5 50 15) = "valorant_latency" /\
  problem_source (_analyze_comparison 8 0.2 50 15) = "valorant_servers".
Proof.
  assert (H : Num.gt (50 - 15)%float 20 = true) by reflexivity.
  split; [exact H|]. split.
  - apply (latency_demotion_only_from_no_issue 1 0.5 50 15 H). reflexivity.
  - rewrite (proj1 (proj2 (proj2 (proj2
        (latency_demotion_only_from_no_issue 8 0.2 50 15 H))))).
    + reflexivity.
    + vm_compute. discriminate.
Defined.

(** C1 (as stated): the returned classification is the packet-loss tree
    alone.  It is not: with comparable loss rates, a clean target and a
    latency gap above 20 ms the tree says 'no_significant_issue' and the
    function returns 'valorant_latency'. *)
Lemma threshold_tree_alone_refuted :
  problem_source (_analyze_comparison 1 0.5 50 15) = "valorant_latency" /\
  fst (Design.threshold_tree 1 0.5) = "no_significant_issue" /\
  String.eqb (problem_source (_analyze_comparison 1 0.5 50 15))
             (fst (Design.threshold_tree 1 0.5)) = false.
Proof. repeat split. Qed.

(** C1 (amended): the returned source and confidence are those of the
    threshold tree on [loss_diff], except that its last leaf reads
    'valorant_latency' when the latency difference exceeds 20; the
    scenario target (8, 40) against reference (0.2, 20) gives
    'valorant_servers' with high confidence. *)
Theorem analyze_comparison_threshold_tree :
  (forall val_loss ref_loss val_latency ref_latency,
     let analysis :=
       _analyze_comparison val_loss ref_loss val_latency ref_latency in
     (problem_source analysis, confidence analysis)
     = Design.threshold_tree_with_latency
         val_loss ref_loss val_latency ref_latency /\
     (Num.gt (val_latency - ref_latency)%float 20 = false \/
      Num.gt (val_loss - ref_loss)%float 3 = true \/
      Num.lt (val_loss - ref_loss)%float (-1) = true \/
      Num.gt val_loss 2 = true ->
      (problem_source analysis, confidence analysis)
      = Design.threshold_tree val_loss ref_loss)) /\
  (problem_source (_analyze_comparison 8 0.2 40 20),
   confidence (_analyze_comparison 8 0.2 40 20))
  = ("valorant_servers", "high").
Proof.
  split; [|reflexivity].
  intros. subst analysis. unfold Design.threshold_tree.
  split_tree; split; try reflexivity; intros; try reflexivity;
    intuition discriminate.
Qed.

(** The two other scenarios of the design document, where the latency
    gap stays at or below 20: target (3, 25) against reference (6, 20), and
    target (1, 15) against reference (0.5, 15). *)
Lemma analyze_comparison_threshold_tree_witness :
  ((problem_source (_analyze_comparison 3 6 25 20),
    confidence (_analyze_comparison 3 6 25 20))
   = Design.threshold_tree 3 6 /\
   Design.threshold_tree 3 6 = ("network_routing", "medium")) /\
  ((problem_source (_analyze_comparison 1 0.5 15 15),
    confidence (_analyze_comparison 1 0.5 15 15))
   = Design.threshold_tree 1 0.5 /\
   Design.threshold_tree 1 0.5 = ("no_significant_issue", "high")).
Proof.
  split; (split; [|reflexivity]).
  - apply (proj2 (proj1 analyze_comparison_threshold_tree
                     3%float 6%float 25%float 20%float)).
    left. reflexivity.
  - apply (proj2 (proj1 analyze_comparison_threshold_tree
                     1%float 0.5%float 15%float 15%float)).
    left. reflexivity.
Defined.

(** ** Facts on binary64 arithmetic *)
Module FloatFacts.
Local Open Scope Z_scope.

Lemma shr_1_nonneg mrs : 0 <= shr_m mrs -> 0 <= shr_m (shr_1 mrs).
Proof.
  destruct mrs as [m r s]; cbn.
  destruct m as [|[p|p|]|[p|p|]]; cbn; lia.
Qed.

Lemma iter_shr_1_nonneg p :
  forall mrs, 0 <= shr_m mrs -> 0 <= shr_m (SpecFloat.iter_pos shr_1 p mrs).
Proof.
  induction p; intros mrs H; cbn; auto using shr_1_nonneg.
Qed.

Lemma shr_fexp_nonneg m e l :
  0 <= m -> 0 <= shr_m (fst (shr_fexp prec emax m e l)).
Proof.
  intros H. unfold shr_fexp, shr.
  assert (H0 : 0 <= shr_m (shr_record_of_loc m l))
    by (destruct l as [|[]]; exact H).
  destruct (fexp prec emax (Zdigits2 m + e) - e); cbn;
    auto using iter_shr_1_nonneg.
Qed.

Lemma round_nearest_even_nonneg m l :
  0 <= m -> 0 <= round_nearest_even m l.
Proof.
  intros H. destruct l as [|[]]; cbn; try lia.
  destruct (Z.even m); lia.
Qed.

(** Rounding a non-negative mantissa with a positive sign bit can end at
    zero, at a positive number or at plus infinity, nowhere else. *)
Lemma binary_round_aux_nonneg m e l :
  0 <= m ->
  SFleb (S754_zero false) (binary_round_aux prec emax false m e l) = true.
Proof.
  intros H. unfold binary_round_aux.
  pose proof (shr_fexp_nonneg m e l H) as H1.
  destruct (shr_fexp prec emax m e l) as [mrs' e'] eqn:E1. cbn [fst] in H1.
  pose proof (shr_fexp_nonneg _ e' loc_Exact
                (round_nearest_even_nonneg _ (loc_of_shr_record mrs') H1))
    as H2.
  destruct (shr_fexp prec emax _ e' loc_Exact) as [mrs'' e''] eqn:E2.
  cbn [fst] in H2.
  destruct (shr_m mrs''); try lia; [reflexivity|].
  destruct (e'' <=? emax - prec); reflexivity.
Qed.

(** Seconds to milliseconds keeps [0 <= x]. *)
Lemma mul_1000_nonneg x :
  PrimFloat.leb 0 x = true -> PrimFloat.leb 0 (x * 1000) = true.
Proof.
  rewrite !leb_spec, mul_spec.
  change (Prim2SF 0) with (S754_zero false).
  replace (Prim2SF 1000) with (S754_finite false 8796093022208000 (-43))
    by (vm_compute; reflexivity).
  destruct (Prim2SF x) as [s|s| |s m e];
    [ destruct s; cbn; congruence | destruct s; cbn; congruence
    | cbn; congruence | ].
  destruct s; [cbn; congruence|]. intros _.
  unfold SFmul. cbn [xorb]. apply binary_round_aux_nonneg. lia.
Qed.



End FloatFacts.

(** C4 (as stated): a reply of exactly zero seconds is clamped to one
    millisecond.  It is not: the stored latency is zero. *)
Lemma ping_server_zero_not_clamped :
  latency (ping_server "2024-05-01T12:00:00" "52.77.252.242" (Delay 0))
  = Some 0%float /\
  Design.clamped_latency 0 = 1%float /\
  PrimFloat.eqb 0 (Design.clamped_latency 0) = false.
Proof. repeat split. Qed.

(** C4 (amended): a successful probe stores the reported delay times 1000
    with both flags false; the product is non-negative whenever the delay
    is, and it is what the design document asks for whenever the delay is
    not zero; nothing is clamped. *)
Theorem ping_server_success_milliseconds :
  forall now server_ip seconds,
    let result := ping_server now server_ip (Delay seconds) in
    latency result = Some (seconds * 1000)%float /\
    packet_loss result = false /\
    timeout result = false /\
    (PrimFloat.leb 0 seconds = true ->
     PrimFloat.leb 0 (seconds * 1000) = true) /\
    (PrimFloat.eqb seconds 0 = false ->
     latency result = Some (Design.clamped_latency seconds)).
Proof.
  intros now server_ip seconds result. subst result. cbn.
  repeat split.
  - apply FloatFacts.mul_1000_nonneg.
  - intros H. unfold Design.clamped_latency. rewrite H. reflexivity.
Qed.

(** A reply after 12.5 ms. *)
Lemma ping_server_success_milliseconds_witness :
  PrimFloat.leb 0 0.0125 = true /\
  latency (ping_server "2024-05-01T12:00:00" "52.77.252.242" (Delay 0.0125))
  = Some 12.5%float /\
  PrimFloat.leb 0 (0.0125 * 1000) = true.
Proof.
  assert (H : PrimFloat.leb 0 0.0125 = true) by reflexivity.
  split; [exact H|]. split.
  - exact (proj1 (ping_server_success_milliseconds
                    "2024-05-01T12:00:00" "52.77.252.242" 0.0125)).
  - exact (proj1 (proj2 (proj2 (proj2 (ping_server_success_milliseconds
                    "2024-05-01T12:00:00" "52.77.252.242" 0.0125)))) H).
Defined.

(** ** Scheduler *)
Section ScheduleFacts.
Context {S : Type} (mk : string -> S -> ping_outcome -> PingResult).

Lemma for_servers_app (servers : list S) :
  forall answers log,
    Schedule.for_servers mk servers answers log
    = (log ++ fst (Schedule.for_servers mk servers answers []),
       snd (Schedule.for_servers mk servers answers [])).
Proof.
  induction servers as [|s servers IH]; intros [|a answers] log; cbn;
    rewrite ?app_nil_r; try reflexivity.
  rewrite IH. rewrite (IH answers [_]). cbn.
  rewrite <- app_assoc. reflexivity.
Qed.

Lemma while_loop_app (servers : list S) (script : list pass) :
  forall log,
    Schedule.while_loop mk servers script log
    = log ++ Schedule.while_loop mk servers script [].
Proof.
  induction script as [|p script IH]; intros log; cbn.
  - rewrite app_nil_r. reflexivity.
  - rewrite for_servers_app.
    destruct (Schedule.for_servers mk servers p []) as [produced completed].
    cbn. destruct completed.
    + rewrite (IH (log ++ produced)), (IH produced).
      rewrite app_assoc. reflexivity.
    + reflexivity.
Qed.

(** A longer run only adds to the log of a shorter one, at its end. *)
Lemma while_loop_extends (servers : list S) (script more : list pass) :
  forall log,
    exists new,
      Schedule.while_loop mk servers (script ++ more) log
      = Schedule.while_loop mk servers script log ++ new.
Proof.
  induction script as [|p script IH]; intros log; cbn.
  - exists (Schedule.while_loop mk servers more []). apply while_loop_app.
  - destruct (Schedule.for_servers mk servers p log) as [log' completed].
    destruct completed.
    + apply IH.
    + exists []. rewrite app_nil_r. reflexivity.
Qed.

End ScheduleFacts.

Lemma run_continuous_test_results now script self :
  results (fst (run_continuous_test now script self))
  = match Schedule.getitem (current_region self) VALORANT_SERVERS with
    | Some servers => Schedule.while_loop ping_server servers script []
    | None => []
    end.
Proof.
  unfold run_continuous_test.
  cbn [current_region results set_results set_start_time set_is_running].
  destruct (Schedule.getitem (current_region self) VALORANT_SERVERS);
    [destruct script|]; reflexivity.
Qed.

Lemma run_continuous_test_reference now script self :
  reference_results (fst (run_continuous_test now script self))
  = reference_results self.
Proof.
  unfold run_continuous_test.
  cbn [current_region results set_results set_start_time set_is_running].
  destruct (Schedule.getitem (current_region self) VALORANT_SERVERS);
    [destruct script|]; reflexivity.
Qed.

(** C6 (as stated): what the log held before a run is still there after
    it.  It is not: the run starts by clearing the log, so after one pass
    over the Tokyo servers the log holds the two new results and the old
    one is gone. *)
Lemma scheduler_drops_old_results :
  results Sample.with_log = [Sample.old_result] /\
  results (fst (run_continuous_test "2024-05-01T12:00:00" Sample.one_pass
                  Sample.with_log))
  = [ ping_server "2024-05-01T12:00:00" Sample.tokyo1 (Delay 0.02);
      ping_server "2024-05-01T12:00:01" Sample.tokyo2 NoReply ] /\
  forallb (fun r => negb (String.eqb (timestamp r)
                            (timestamp Sample.old_result)))
    (results (fst (run_continuous_test "2024-05-01T12:00:00" Sample.one_pass
                     Sample.with_log))) = true /\
  reference_results
    (test_reference_servers []
       (set_reference_results [Sample.old_result] (init 3 1))) = [].
Proof. repeat split. Qed.

Section RunLogFacts.
Context {S : Type} (mk : string -> S -> ping_outcome -> PingResult).

(** One traversal appends one result per server it reached, and reaches
    them all exactly when the pass has a probe for each. *)
Lemma for_servers_pass (servers : list S) :
  forall answers log,
    Schedule.for_servers mk servers answers log
    = (log ++ pass_results mk servers answers,
       (length servers <=? length answers)%nat).
Proof.
  induction servers as [|s servers IH]; intros [|a answers] log; cbn;
    rewrite ?app_nil_r; try reflexivity.
  rewrite IH. rewrite <- app_assoc. reflexivity.
Qed.

Lemma while_loop_run_log (servers : list S) (script : list pass) :
  forall log,
    Schedule.while_loop mk servers script log
    = log ++ run_log mk servers script.
Proof.
  induction script as [|p script IH]; intros log; cbn [Schedule.while_loop run_log].
  - rewrite app_nil_r. reflexivity.
  - rewrite for_servers_pass.
    destruct (length servers <=? length p)%nat.
    + rewrite IH, <- app_assoc. reflexivity.
    + rewrite app_nil_r. reflexivity.
Qed.

Lemma run_log_extends (servers : list S) (script more : list pass) :
  exists new,
    run_log mk servers (script ++ more) = run_log mk servers script ++ new.
Proof.
  induction script as [|p script [new IH]]; cbn [run_log app].
  - eexists. reflexivity.
  - destruct (length servers <=? length p)%nat.
    + exists new. rewrite IH, app_assoc. reflexivity.
    + exists []. rewrite !app_nil_r. reflexivity.
Qed.

End RunLogFacts.

(** C6 (amended): a scheduler run empties its own log on entry and from
    then on only appends.  After the run the log is, whatever it held
    before, the results of this run in probe order: for each pass one
    result per server reached, built from the probe of that server, up to
    and including the first pass that was cut short.  A run that goes on
    longer extends the log of the shorter run at its end, and the log of
    the other group is not touched. *)
Theorem scheduler_clears_then_appends :
  forall now script more self,
    let after := fst (run_continuous_test now script self) in
    let later := fst (run_continuous_test now (script ++ more) self) in
    let after_ref := test_reference_servers script self in
    let later_ref := test_reference_servers (script ++ more) self in
    results after
    = match Schedule.getitem (current_region self) VALORANT_SERVERS with
      | Some servers => run_log ping_server servers script
      | None => []
      end /\
    reference_results after = reference_results self /\
    (exists new, results later = results after ++ new) /\
    reference_results after_ref
    = run_log Schedule.reference_probe Schedule.test_servers script /\
    results after_ref = results self /\
    (exists new, reference_results later_ref
                 = reference_results after_ref ++ new).
Proof.
  intros now script more self after later after_ref later_ref.
  subst after later after_ref later_ref.
  rewrite !run_continuous_test_results, run_continuous_test_reference.
  unfold test_reference_servers.
  cbn [reference_results results set_reference_results].
  rewrite !(while_loop_run_log Schedule.reference_probe).
  destruct (Schedule.getitem (current_region self) VALORANT_SERVERS)
    as [servers|].
  - rewrite !(while_loop_run_log ping_server). cbn [app].
    repeat split.
    + apply run_log_extends.
    + apply run_log_extends.
  - repeat split.
    + exists []. reflexivity.
    + apply run_log_extends.
Qed.

(** ** Metrics aggregator *)

(** The division of a loss rate is guarded. *)
Lemma rate_returns lost total :
  exists rate,
    (if (0 <? total)%Z
     then q ← Num.true_div lost total; Return (q * 100)%float
     else Return 0%float) = Return rate.
Proof.
  destruct (0 <? total)%Z eqn:Hpos; [|eauto].
  unfold Num.true_div.
  destruct (total =? 0)%Z eqn:Hzero; [lia|]. cbn. eauto.
Qed.

Section AggregatorFacts.
Variable mean : list float -> float.
Variable stdev : list float -> outcome float.

(** The loop body raises only what [statistics.stdev] raises on the two
    or more latencies of the server. *)
Lemma server_stats_of_raises log srv e :
  server_stats_of mean stdev log srv = Raise e ->
  (2 <= length (latencies_of log srv))%nat /\
  stdev (latencies_of log srv) = Raise e.
Proof.
  unfold server_stats_of, latencies_of.
  set (server_results := filter (fun r => server r = srv) log).
  destruct (rate_returns
              (Z.of_nat (length (filter (fun r => packet_loss r = true)
                                   server_results)))
              (Z.of_nat (length server_results))) as [rate ->].
  cbn [mbind outcome_bind].
  destruct (omap latency server_results) as [|x [|y rest]];
    cbn [mbind outcome_bind py_mean length Nat.ltb Nat.leb];
    try discriminate.
  unfold py_stdev. cbn [length Nat.ltb Nat.leb].
  destruct (stdev (x :: y :: rest)) as [j|e']; cbn [mbind outcome_bind];
    [discriminate|].
  intros [= ->]. split; [cbn; lia|reflexivity].
Qed.

(** It returns as soon as [statistics.stdev] does, and without asking when
    the server has fewer than two latencies. *)
Lemma server_stats_of_returns log srv :
  (length (latencies_of log srv) < 2)%nat \/
  (exists j, stdev (latencies_of log srv) = Return j) ->
  exists st, server_stats_of mean stdev log srv = Return st.
Proof.
  intros Hstdev.
  destruct (server_stats_of mean stdev log srv) as [st|e] eqn:Hrun; [eauto|].
  apply server_stats_of_raises in Hrun as [Hlen He].
  destruct Hstdev as [Hshort|[j Hj]]; [lia|congruence].
Qed.

Lemma stats_loop_lookup log servers :
  forall server_stats m,
    stats_loop mean stdev log servers server_stats = Return m ->
    forall k, m !! k = if decide (k ∈ servers) then stored mean stdev log k
                       else server_stats !! k.
Proof.
  induction servers as [|srv servers IH]; intros server_stats m; cbn.
  - intros [= <-] k.
    destruct (decide (k ∈ [])) as [H|H]; [inversion H|reflexivity].
  - destruct (server_stats_of mean stdev log srv) as [st|e] eqn:Hst;
      cbn [mbind outcome_bind]; [|discriminate].
    intros Hm k. rewrite (IH _ _ Hm).
    destruct (decide (k = srv)) as [->|Hne].
    + destruct (decide (srv ∈ srv :: servers)) as [_|Hout];
        [|exfalso; apply Hout; constructor].
      destruct (decide (srv ∈ servers)); [reflexivity|].
      rewrite lookup_insert_eq. unfold stored. rewrite Hst. reflexivity.
    + rewrite lookup_insert_ne by congruence.
      destruct (decide (k ∈ servers)) as [Hin|Hout],
               (decide (k ∈ srv :: servers)) as [Hin'|Hout'];
        try reflexivity; exfalso.
      * apply Hout'. constructor. exact Hin.
      * apply elem_of_cons in Hin' as [Heq|Hin']; auto.
Qed.

(** When the loop returns, the body returned for each of its servers. *)
Lemma stats_loop_bodies log servers :
  forall server_stats m,
    stats_loop mean stdev log servers server_stats = Return m ->
    forall srv, srv ∈ servers ->
                exists st, server_stats_of mean stdev log srv = Return st.
Proof.
  induction servers as [|s servers IH]; intros server_stats m; cbn.
  - intros _ srv Hin. inversion Hin.
  - destruct (server_stats_of mean stdev log s) as [st|e] eqn:Hst;
      cbn [mbind outcome_bind]; [|discriminate].
    intros Hm srv Hin. apply elem_of_cons in Hin as [->|Hin]; [eauto|].
    exact (IH _ _ Hm srv Hin).
Qed.

Lemma stats_loop_raises log servers :
  forall server_stats e,
    stats_loop mean stdev log servers server_stats = Raise e ->
    exists srv, srv ∈ servers /\
                server_stats_of mean stdev log srv = Raise e.
Proof.
  induction servers as [|s servers IH]; intros server_stats e; cbn.
  - discriminate.
  - destruct (server_stats_of mean stdev log s) as [st|e'] eqn:Hst;
      cbn [mbind outcome_bind].
    + intros Hrun. destruct (IH _ _ Hrun) as [srv [Hin Hsrv]].
      exists srv. split; [right; exact Hin|exact Hsrv].
    + intros [= ->]. exists s. split; [left|exact Hst].
Qed.

Lemma servers_of_log self srv :
  srv ∈ elements (list_to_set (map server (results self)) : gset string)
  <-> srv ∈ map server (results self).
Proof. rewrite elem_of_elements, elem_of_list_to_set. reflexivity. Qed.

Lemma calculate_stats_lookup self m :
  calculate_stats mean stdev self = Return m ->
  forall k, m !! k = if decide (k ∈ map server (results self))
                     then stored mean stdev (results self) k else None.
Proof.
  unfold calculate_stats. intros Hm k.
  rewrite (stats_loop_lookup _ _ _ _ Hm), lookup_empty.
  destruct (decide (k ∈ elements _)) as [Hin|Hout],
           (decide (k ∈ map server (results self))) as [Hin'|Hout'];
    try reflexivity; exfalso.
  - apply Hout'. apply servers_of_log. exact Hin.
  - apply Hout. apply servers_of_log. exact Hin'.
Qed.

(** What [calculate_stats] stores under a server of the log is what the
    loop body returned for it. *)
Lemma calculate_stats_entry self m srv :
  calculate_stats mean stdev self = Return m ->
  srv ∈ map server (results self) ->
  exists st, server_stats_of mean stdev (results self) srv = Return st /\
             m !! srv = Some st.
Proof.
  intros Hm Hin.
  destruct (stats_loop_bodies _ _ _ _ Hm srv) as [st Hst];
    [apply servers_of_log; exact Hin|].
  exists st. split; [exact Hst|].
  rewrite (calculate_stats_lookup self m Hm), decide_True by exact Hin.
  unfold stored. rewrite Hst. reflexivity.
Qed.

(** [calculate_stats] raises only what [statistics.stdev] raised on the
    two or more latencies of one server of the log. *)
Lemma calculate_stats_raises self e :
  calculate_stats mean stdev self = Raise e ->
  exists srv, srv ∈ map server (results self) /\
              (2 <= length (latencies_of (results self) srv))%nat /\
              stdev (latencies_of (results self) srv) = Raise e.
Proof.
  unfold calculate_stats. intros Hrun.
  apply stats_loop_raises in Hrun as [srv [Hin Hsrv]].
  exists srv. split; [apply servers_of_log; exact Hin|].
  apply server_stats_of_raises. exact Hsrv.
Qed.

(** It returns when [statistics.stdev] returns for every server that has
    two latencies or more. *)
Lemma calculate_stats_returns self :
  (forall srv, srv ∈ map server (results self) ->
               (2 <= length (latencies_of (results self) srv))%nat ->
               exists j, stdev (latencies_of (results self) srv) = Return j) ->
  exists m, calculate_stats mean stdev self = Return m.
Proof.
  intros Hstdev.
  destruct (calculate_stats mean stdev self) as [m|e] eqn:Hrun; [eauto|].
  apply calculate_stats_raises in Hrun as [srv [Hin [Hlen He]]].
  destruct (Hstdev srv Hin Hlen) as [j Hj]. congruence.
Qed.






End AggregatorFacts.



(** The same call on a log an import can build, where the second server
    has an infinite latency: the exception of [stdev] leaves
    [calculate_stats], and no statistics exist, the dead server's
    included. *)
Example calculate_stats_refused :
  calculate_stats Sample.first_or_zero Sample.finite_only Sample.infinite_log
  = Raise AttributeError.
Proof. vm_compute. reflexivity. Qed.

(** ** The invariant of a result *)
Section InvariantFacts.
Context {S : Type} (mk : string -> S -> ping_outcome -> PingResult).
Variable P : PingResult -> Prop.
Hypothesis mk_ok : forall now s r, P (mk now s r).

Lemma for_servers_Forall (servers : list S) :
  forall answers log,
    Forall P log ->
    Forall P (fst (Schedule.for_servers mk servers answers log)).
Proof.
  induction servers as [|s servers IH]; intros [|a answers] log Hlog; cbn;
    try exact Hlog.
  apply IH. apply Forall_app. split; [exact Hlog|].
  constructor; [apply mk_ok | constructor].
Qed.

Lemma while_loop_Forall (servers : list S) (script : list pass) :
  forall log,
    Forall P log -> Forall P (Schedule.while_loop mk servers script log).
Proof.
  induction script as [|p script IH]; intros log Hlog; cbn; [exact Hlog|].
  pose proof (for_servers_Forall servers p log Hlog) as Hpass.
  destruct (Schedule.for_servers mk servers p log) as [log' completed].
  cbn in Hpass. destruct completed; [apply IH|]; exact Hpass.
Qed.

End InvariantFacts.

Lemma ping_server_loss_iff now server_ip r :
  loss_iff_no_latency (ping_server now server_ip r).
Proof. unfold loss_iff_no_latency. destruct r; cbn; split; congruence. Qed.

Lemma reference_probe_loss_iff now entry r :
  loss_iff_no_latency (Schedule.reference_probe now entry r).
Proof.
  unfold loss_iff_no_latency. destruct entry, r; cbn; split; congruence.
Qed.

Lemma parse_row_cells float_of_str row result :
  parse_row float_of_str row = Return result ->
  exists lat loss,
    row !! "Latency(ms)" = Some (Some lat) /\
    row !! "Packet_Loss" = Some (Some loss) /\
    (latency result = None <-> lat = "N/A") /\
    (packet_loss result = true <-> Str.lower loss = "true").
Proof.
  unfold parse_row, row_getitem.
  destruct (row !! "Latency(ms)") as [[lat|]|]; cbn; try discriminate.
  destruct (String.eqb_spec lat "N/A") as [Hna|Hna]; cbn.
  - destruct (row !! "Packet_Loss") as [[loss|]|]; cbn; try discriminate.
    destruct (row !! "Timeout") as [[tout|]|]; cbn; try discriminate.
    destruct (row !! "Timestamp") as [[ts|]|]; cbn; try discriminate.
    destruct (row !! "Server") as [[srv|]|]; cbn; try discriminate.
    intros [= <-]. exists lat, loss. cbn. repeat split; auto.
    + intros H. apply String.eqb_eq. exact H.
    + intros H. apply String.eqb_eq. exact H.
  - destruct (float_of_str lat) as [x|]; cbn; try discriminate.
    destruct (row !! "Packet_Loss") as [[loss|]|]; cbn; try discriminate.
    destruct (row !! "Timeout") as [[tout|]|]; cbn; try discriminate.
    destruct (row !! "Timestamp") as [[ts|]|]; cbn; try discriminate.
    destruct (row !! "Server") as [[srv|]|]; cbn; try discriminate.
    intros [= <-]. exists lat, loss. cbn. repeat split; auto.
    + discriminate.
    + contradiction.
    + intros H. apply String.eqb_eq. exact H.
    + intros H. apply String.eqb_eq. exact H.
Qed.

(** C5 (as stated): every result in the log, imported ones included, is
    lost if and only if it has no latency.  It is not: a row reading
    N/A, False, False is imported as a result with no latency that is not
    lost. *)
Lemma import_breaks_loss_iff_no_latency :
  _import_csv_results Sample.no_float "" Sample.odd_disk "log.csv" (init 3 1)
  = (set_results
       [mkPingResult "2024-05-01T12:00:00" "52.77.252.242" None false false]
       (init 3 1),
     Return true) /\
  packet_loss
    (mkPingResult "2024-05-01T12:00:00" "52.77.252.242" None false false)
  = false /\
  latency
    (mkPingResult "2024-05-01T12:00:00" "52.77.252.242" None false false)
  = None.
Proof. repeat split. Qed.

(** C5 (amended): every result the probe unit builds, and so every result
    a scheduler run leaves in either log, is lost if and only if it has no
    latency.  A result rebuilt by the tabular import has no latency exactly
    when its Latency(ms) cell reads N/A and is lost exactly when its
    Packet_Loss cell reads true in any letter case: the two cells are read
    independently. *)
Theorem loss_iff_no_latency_probe_and_import :
  forall float_of_str,
    (forall now server_ip r,
        loss_iff_no_latency (ping_server now server_ip r)) /\
    (forall now script self,
        Forall loss_iff_no_latency
          (results (fst (run_continuous_test now script self)))) /\
    (forall script self,
        Forall loss_iff_no_latency
          (reference_results (test_reference_servers script self))) /\
    (forall row result,
        parse_row float_of_str row = Return result ->
        exists lat loss,
          row !! "Latency(ms)" = Some (Some lat) /\
          row !! "Packet_Loss" = Some (Some loss) /\
          (latency result = None <-> lat = "N/A") /\
          (packet_loss result = true <-> Str.lower loss = "true") /\
          (loss_iff_no_latency result <->
           (Str.lower loss = "true" <-> lat = "N/A"))).
Proof.
  intros float_of_str. repeat apply conj.
  - apply ping_server_loss_iff.
  - intros now script self. rewrite run_continuous_test_results.
    destruct (Schedule.getitem (current_region self) VALORANT_SERVERS);
      [|constructor].
    apply while_loop_Forall; [apply ping_server_loss_iff | constructor].
  - intros script self. unfold test_reference_servers. cbn.
    apply while_loop_Forall; [apply reference_probe_loss_iff | constructor].
  - intros row result Hrow.
    destruct (parse_row_cells float_of_str row result Hrow)
      as [lat [loss [Hlat [Hloss [Hnone Htrue]]]]].
    exists lat, loss. unfold loss_iff_no_latency.
    repeat apply conj; auto; tauto.
Qed.

(** A row that keeps the invariant: N/A with a loss flag in capitals. *)
Lemma loss_iff_no_latency_probe_and_import_witness :
  exists lat loss,
    dict_row ["Timestamp"; "Server"; "Latency(ms)"; "Packet_Loss"; "Timeout"]
      ["2024-05-01T12:00:00"; "52.77.252.242"; "N/A"; "TRUE"; "True"]
      !! "Latency(ms)" = Some (Some lat) /\
    dict_row ["Timestamp"; "Server"; "Latency(ms)"; "Packet_Loss"; "Timeout"]
      ["2024-05-01T12:00:00"; "52.77.252.242"; "N/A"; "TRUE"; "True"]
      !! "Packet_Loss" = Some (Some loss) /\
    (latency (mkPingResult "2024-05-01T12:00:00" "52.77.252.242"
                None true true) = None <-> lat = "N/A") /\
    (packet_loss (mkPingResult "2024-05-01T12:00:00" "52.77.252.242"
                    None true true) = true <-> Str.lower loss = "true") /\
    (loss_iff_no_latency (mkPingResult "2024-05-01T12:00:00" "52.77.252.242"
                            None true true) <->
     (Str.lower loss = "true" <-> lat = "N/A")).
Proof.
  apply (proj2 (proj2 (proj2
           (loss_iff_no_latency_probe_and_import Sample.no_float)))).
  reflexivity.
Defined.

(** ** Result store: export then import *)
Section RoundTrip.
Variable float_str : float -> string.
Variable float_of_str : string -> option float.

(** A row under the header the export writes. *)
Lemma parse_row_exported ts srv lat loss tout :
  parse_row float_of_str (dict_row csv_header [ts; srv; lat; loss; tout])
  = (latency0 ← parse_latency float_of_str (Some lat);
     Return (mkPingResult ts srv latency0
               (String.eqb (Str.lower loss) "true")
               (String.eqb (Str.lower tout) "true"))).
Proof.
  unfold parse_row, row_getitem.
  change (dict_row csv_header [ts; srv; lat; loss; tout] !! "Latency(ms)")
    with (Some (Some lat)).
  change (dict_row csv_header [ts; srv; lat; loss; tout] !! "Packet_Loss")
    with (Some (Some loss)).
  change (dict_row csv_header [ts; srv; lat; loss; tout] !! "Timeout")
    with (Some (Some tout)).
  change (dict_row csv_header [ts; srv; lat; loss; tout] !! "Timestamp")
    with (Some (Some ts)).
  change (dict_row csv_header [ts; srv; lat; loss; tout] !! "Server")
    with (Some (Some srv)).
  cbn. destruct (parse_latency float_of_str (Some lat)); reflexivity.
Qed.

Lemma flag_roundtrip b :
  String.eqb (Str.lower (bool_str b)) "true" = b.
Proof. destruct b; reflexivity. Qed.

Lemma latency_cell_roundtrip r :
  exportable float_str float_of_str r ->
  parse_latency float_of_str (Some (latency_cell float_str (latency r)))
  = Return (latency r).
Proof.
  unfold exportable, latency_cell, parse_latency.
  destruct (latency r) as [x|]; [|reflexivity].
  intros [Htruthy [Hna Hback]]. rewrite Htruthy.
  destruct (String.eqb_spec (float_str x) "N/A") as [E|E]; [contradiction|].
  rewrite Hback. reflexivity.
Qed.

Lemma read_rows_exported log :
  forall imported_results,
    Forall (exportable float_str float_of_str) log ->
    read_rows float_of_str csv_header (map (csv_row float_str) log)
      imported_results
    = Return (imported_results ++ log).
Proof.
  induction log as [|r log IH]; intros imported_results Hlog; cbn [map].
  - cbn. rewrite app_nil_r. reflexivity.
  - apply Forall_cons in Hlog as [Hr Hlog].
    unfold csv_row at 1. cbn [read_rows].
    rewrite parse_row_exported, latency_cell_roundtrip by exact Hr.
    rewrite !flag_roundtrip. cbn.
    rewrite IH by exact Hlog. rewrite <- app_assoc.
    destruct r; reflexivity.
Qed.

(** Export then import gives the log back when every result is
    [exportable]. *)
Lemma roundtrip_exportable log :
  Forall (exportable float_str float_of_str) log ->
  read_csv float_of_str (csv_header :: map (csv_row float_str) log)
  = Return log.
Proof.
  intros Hlog. unfold read_csv. apply (read_rows_exported log [] Hlog).
Qed.

End RoundTrip.

(** A log the round trip keeps: a lost probe and one answered after
    21.5 ms, with a [str] and a [float] that agree on that number. *)
Example roundtrip_exportable_sample :
  read_csv (fun _ => Some 21.5%float)
    (csv_header :: map (csv_row (fun _ => "21.5")) (results Sample.half_dead))
  = Return (results Sample.half_dead).
Proof.
  apply roundtrip_exportable.
  repeat constructor; cbn; discriminate.
Qed.

(** C2 (the code at the failing input): a log holding a successful probe
    with latency 0.0 and a lost probe is exported with N/A in both latency
    cells (the export tests the latency for truth, not for [None]), and the
    successful probe is read back without latency, whatever [str] and
    [float] do. *)
Theorem zero_latency_lost_in_roundtrip :
  forall float_str float_of_str,
    let d := save_results float_str "run" Sample.zero_log ∅ in
    results Sample.zero_log
    = [ mkPingResult "2024-05-01T12:00:00" "52.77.252.242"
          (Some 0%float) false false;
        mkPingResult "2024-05-01T12:00:01" "13.230.149.157"
          None true true ] /\
    d !! "run.csv"
    = Some (mkFile
              [ ["Timestamp"; "Server"; "Latency(ms)"; "Packet_Loss"; "Timeout"];
                ["2024-05-01T12:00:00"; "52.77.252.242"; "N/A"; "False"; "False"];
                ["2024-05-01T12:00:01"; "13.230.149.157"; "N/A"; "True"; "True"] ]
              None) /\
    _import_csv_results float_of_str "" d "run.csv" (init 3 1)
    = (set_results
         [ mkPingResult "2024-05-01T12:00:00" "52.77.252.242"
             None false false;
           mkPingResult "2024-05-01T12:00:01" "13.230.149.157"
             None true true ]
         (init 3 1),
       Return true).
Proof.
  intros float_str float_of_str d. subst d.
  repeat split.
Qed.

(** ** Result store: failing imports *)
Section ImportFacts.
Variable float_of_str : string -> option float.
Variable fromisoformat : string -> option string.
#[local] Existing Instance action_bind.

(** The tabular import builds its list aside: when it raises, nothing has
    been stored. *)
Lemma import_csv_failure_unchanged choice d name self self' e :
  _import_csv_results float_of_str choice d name self = (self', Raise e) ->
  self' = self.
Proof.
  unfold _import_csv_results. destruct (d !! name) as [f|].
  - destruct (read_csv float_of_str (csv_rows f)).
    + discriminate.
    + intros [= <- _]. reflexivity.
  - intros [= <- _]. reflexivity.
Qed.

(** A statistics file that is absent or does not decode leaves the tracker
    alone. *)
Lemma import_json_unread_unchanged d name self :
  d !! name = None \/ (exists f, d !! name = Some f /\ json_doc f = None) ->
  exists e, _import_json_stats fromisoformat d name self = (self, Raise e).
Proof.
  unfold _import_json_stats. intros [H|[f [H Hdoc]]]; rewrite H.
  - eexists. reflexivity.
  - rewrite Hdoc. eexists. reflexivity.
Qed.

Variable markup : string -> string -> bool.

(** The file name is printed first: when rich refuses it, the body is not
    reached. *)
Lemma announce_then {A : Type} (m : action A) name self :
  (_ ← announce markup name; m) self
  = match console_print markup "cyan" name with
    | Return _ => m self
    | Raise e => (self, Raise e)
    end.
Proof.
  unfold announce, pure. cbn.
  destruct (console_print markup "cyan" name); reflexivity.
Qed.

(** Neither [except] clause assigns to the tracker. *)
Lemma import_results_state typed choice d name self :
  fst (import_results float_of_str fromisoformat markup typed choice d
         (Some name) self)
  = if Str.endswith name ".csv" then
      fst ((_ ← announce markup name;
            _import_csv_results float_of_str choice d name) self)
    else if Str.endswith name "_stats.json" || Str.endswith name ".json" then
      fst ((_ ← announce markup name;
            _import_json_stats fromisoformat d name) self)
    else self.
Proof.
  unfold import_results.
  destruct (Str.endswith name ".csv");
    [|destruct (Str.endswith name "_stats.json" || Str.endswith name ".json")];
    [| |reflexivity].
  - destruct ((_ ← announce markup name;
               _import_csv_results float_of_str choice d name) self)
      as [self1 [b|e]]; [reflexivity|destruct e; reflexivity].
  - destruct ((_ ← announce markup name;
               _import_json_stats fromisoformat d name) self)
      as [self1 [b|e]]; [reflexivity|destruct e; reflexivity].
Qed.

(** The failures of [import_results] that leave the tracker as it was. *)
Lemma import_results_failure_unchanged typed choice d name self self' r :
  import_results float_of_str fromisoformat markup typed choice d
    (Some name) self
  = (self', r) ->
  r <> Return true ->
  Str.endswith name ".csv" = true \/
  d !! name = None \/
  (exists f, d !! name = Some f /\ json_doc f = None) \/
  (Str.endswith name "_stats.json" || Str.endswith name ".json" = false) ->
  self' = self.
Proof.
  unfold import_results. intros Hrun Hfail Hpath.
  rewrite !announce_then in Hrun.
  destruct (Str.endswith name ".csv") eqn:Hcsv.
  - destruct (console_print markup "cyan" name) as [[]|e0].
    + destruct (_import_csv_results float_of_str choice d name self)
        as [self1 [b|e]] eqn:Hcsvrun.
      * injection Hrun as <- <-.
        unfold _import_csv_results in Hcsvrun.
        destruct (d !! name) as [f|]; [|discriminate].
        destruct (read_csv float_of_str (csv_rows f)); [|discriminate].
        injection Hcsvrun as _ <-. contradiction.
      * apply import_csv_failure_unchanged in Hcsvrun. subst self1.
        destruct e; injection Hrun as <- _; reflexivity.
    + destruct e0; injection Hrun as <- _; reflexivity.
  - destruct Hpath as [H|Hpath]; [discriminate|].
    destruct (Str.endswith name "_stats.json" || Str.endswith name ".json")
      eqn:Hjson.
    + destruct (console_print markup "cyan" name) as [[]|e0].
      * assert (Hunread : d !! name = None \/
                          (exists f, d !! name = Some f /\ json_doc f = None)).
        { destruct Hpath as [H|[H|H]]; auto. discriminate. }
        destruct (import_json_unread_unchanged d name self Hunread) as [e He].
        rewrite He in Hrun.
        destruct e; injection Hrun as <- _; reflexivity.
      * destruct e0; injection Hrun as <- _; reflexivity.
    + injection Hrun as <- _. reflexivity.
Qed.

End ImportFacts.

(** A file that is not there. *)
Example import_missing_file_unchanged :
  import_results Sample.no_float (fun _ => None) (fun _ _ => false) "" "" ∅
    (Some "gone.csv") Sample.with_log
  = (Sample.with_log, Return false).
Proof. reflexivity. Qed.

(** A name with a closing tag: rich refuses the line that announces the
    import and then the line that reports the error, and the exception
    leaves [import_results]. *)
Example import_markup_name_raises :
  import_results Sample.no_float (fun _ => None) (fun _ _ => false) "" "" ∅
    (Some "a[/b].csv") Sample.with_log
  = (Sample.with_log, Raise MarkupError).
Proof. reflexivity. Qed.

(** C3 (the code at the failing input): a statistics file whose
    [start_time] is a number, or one whose [server_stats] entry lacks its
    fields, makes the import fail after the region of the file has been
    stored: [import_results] returns [False] and [current_region] has
    changed from Tokyo to Seoul. *)
Theorem json_import_failure_keeps_region :
  forall float_of_str fromisoformat markup typed choice,
    current_region (init 3 1) = "Tokyo (Japan)" /\
    import_results float_of_str fromisoformat markup typed choice
      Sample.bad_stats_disk (Some "old_stats.json") (init 3 1)
    = (set_current_region "Seoul (Korea)" (init 3 1), Return false) /\
    import_results float_of_str fromisoformat markup typed choice
      Sample.short_stats_disk (Some "old_stats.json") (init 3 1)
    = (set_current_region "Seoul (Korea)" (init 3 1), Return false).
Proof.
  intros float_of_str fromisoformat markup typed choice.
  repeat split.
Qed.

(** * Properties of the rest of the tracker *)

(** ** Comparison with the reference services *)
Section ComparingFacts.
Variable mean : list float -> float.
Variable stdev : list float -> outcome float.

Lemma mean_or_zero_returns data :
  exists avg, mean_or_zero mean data = Return avg.
Proof. destruct data; cbn; eauto. Qed.

Lemma py_mean_returns x l :
  py_mean mean (x :: l) = Return (mean (x :: l)).
Proof. reflexivity. Qed.

(** A service gets an entry exactly when one of the results carries its
    label. *)
Lemma service_stats_of_spec log service :
  (service_stats_of mean log service = Return None /\
   forall r, r ∈ log -> of_service service r = false) \/
  (exists st, service_stats_of mean log service = Return (Some st)) /\
  (exists r, r ∈ log /\ of_service service r = true).
Proof.
  unfold service_stats_of.
  destruct (filter (fun r => of_service service r = true) log)
    as [|r0 rest] eqn:Hfilter.
  - left. split; [reflexivity|].
    intros r Hr. destruct (of_service service r) eqn:Hof; [|reflexivity].
    assert (Hin : r ∈ filter (fun r => of_service service r = true) log)
      by (apply list_elem_of_filter; auto).
    rewrite Hfilter in Hin. inversion Hin.
  - right. split.
    + destruct (rate_returns
                  (Z.of_nat (length (filter (fun r => packet_loss r = true)
                                       (r0 :: rest))))
                  (Z.of_nat (length (r0 :: rest)))) as [rate Hrate].
      rewrite Hrate. cbn -[omap mean_or_zero].
      destruct (mean_or_zero_returns (omap latency (r0 :: rest)))
        as [avg Havg].
      rewrite Havg. cbn. eauto.
    + exists r0.
      assert (Hin : r0 ∈ filter (fun r => of_service service r = true) log)
        by (rewrite Hfilter; constructor).
      apply list_elem_of_filter in Hin as [Hof Hin]. auto.
Qed.

Lemma reference_loop_spec log services :
  forall reference_stats,
    exists out,
      reference_loop mean log services reference_stats = Return out /\
      (out = [] <->
       reference_stats = [] /\
       forall service, service ∈ services ->
                       forall r, r ∈ log -> of_service service r = false).
Proof.
  induction services as [|service services IH]; intros reference_stats; cbn.
  - exists reference_stats. split; [reflexivity|]. split.
    + intros ->. split; [reflexivity|]. intros service H. inversion H.
    + intros [-> _]. reflexivity.
  - destruct (service_stats_of_spec log service)
      as [[Hnone Hall]|[[st Hsome] [r [Hr Hof]]]].
    + rewrite Hnone. cbn.
      destruct (IH reference_stats) as [out [Hout Hempty]].
      exists out. split; [exact Hout|].
      rewrite Hempty. split.
      * intros [-> Hrest]. split; [reflexivity|].
        intros s Hs. apply elem_of_cons in Hs as [->|Hs]; auto.
      * intros [-> Hrest]. split; [reflexivity|].
        intros s Hs. apply Hrest. constructor. exact Hs.
    + rewrite Hsome. cbn.
      destruct (IH (reference_stats ++ [(service, st)])) as [out [Hout Hempty]].
      exists out. split; [exact Hout|].
      rewrite Hempty. split.
      * intros [Happ _]. destruct reference_stats; discriminate Happ.
      * intros [_ Hrest].
        rewrite (Hrest service) in Hof by (constructor || exact Hr).
        discriminate Hof.
Qed.

(** The statistics of a non-empty log hold at least one server. *)
Lemma stats_values_nonempty self server_stats :
  calculate_stats mean stdev self = Return server_stats ->
  results self <> [] ->
  exists st values, stats_values self server_stats = st :: values.
Proof.
  intros Hm Hne. unfold stats_values.
  destruct (elements (list_to_set (map server (results self)) : gset string))
    as [|srv servers] eqn:Helements.
  - exfalso. destruct (results self) as [|r log] eqn:Hlog; [congruence|].
    assert (Hin : server r ∈
                  elements (list_to_set (map server (r :: log)) : gset string)).
    { apply elem_of_elements, elem_of_list_to_set. cbn. constructor. }
    rewrite Helements in Hin. inversion Hin.
  - assert (Hsrv : srv ∈ map server (results self)).
    { apply (elem_of_list_to_set (C := gset string)), elem_of_elements.
      rewrite Helements. constructor. }
    destruct (calculate_stats_entry mean stdev self server_stats srv Hm Hsrv)
      as [st [_ Hst]].
    exists st, (omap (fun k => server_stats !! k) servers).
    cbn. rewrite Hst. reflexivity.
Qed.

(** Once the statistics of the target group are there, nothing raises. *)
Lemma compare_values_spec st values log :
  exists res,
    compare_values mean (st :: values) log = Return res /\
    ((exists message, res = CompareError message) <->
     (forall service, service ∈ map fst REFERENCE_SERVERS ->
                      forall r, r ∈ log -> of_service service r = false)) /\
    (forall c, res = Compared c ->
       comparison_analysis c
       = _analyze_comparison
           (valorant_avg_packet_loss c) (reference_avg_packet_loss c)
           (valorant_avg_latency c) (reference_avg_latency c)).
Proof.
  unfold compare_values. cbn [map]. rewrite py_mean_returns.
  cbn [mbind outcome_bind].
  destruct (mean_or_zero_returns
              (positive_only (map avg_latency (st :: values))))
    as [vlat Hvlat].
  cbn [map] in Hvlat. rewrite Hvlat. cbn [mbind outcome_bind].
  destruct (reference_loop_spec log (map fst REFERENCE_SERVERS) [])
    as [out [Hout Hempty]].
  rewrite Hout. cbn [mbind outcome_bind].
  destruct out as [|entry out].
  - eexists. split; [reflexivity|]. split; [|discriminate].
    split; [|eauto].
    intros _. apply Hempty. reflexivity.
  - unfold compare_averages. cbn [map]. rewrite py_mean_returns.
    cbn [mbind outcome_bind].
    destruct (mean_or_zero_returns
                (positive_only
                   (map (fun st => service_avg_latency (snd st))
                      (entry :: out)))) as [rlat Hrlat].
    cbn [map] in Hrlat. rewrite Hrlat. cbn [mbind outcome_bind].
    eexists. split; [reflexivity|]. split.
    + split.
      * intros [message H]. discriminate H.
      * intros H.
        exfalso. assert (Hnil : entry :: out = []) by (apply Hempty; auto).
        discriminate Hnil.
    + intros c [= <-]. reflexivity.
Qed.

(** [compare_with_reference_servers] raises exactly what
    [calculate_stats] raises, when it gets to call it. *)
Lemma compare_raises self e :
  compare_with_reference_servers mean stdev self = Raise e <->
  reference_results self <> [] /\ results self <> [] /\
  calculate_stats mean stdev self = Raise e.
Proof.
  unfold compare_with_reference_servers.
  destruct (reference_results self) as [|ref0 refs] eqn:Href.
  { split; [discriminate|]. intros [H _]. contradiction. }
  destruct (results self) as [|r0 log] eqn:Hlog.
  { split; [discriminate|]. intros [_ [H _]]. contradiction. }
  destruct (calculate_stats mean stdev self) as [m|e'] eqn:Hm;
    cbn [mbind outcome_bind].
  - destruct (stats_values_nonempty self m Hm) as [st [values Hv]];
      [congruence|].
    rewrite Hv.
    destruct (compare_values_spec st values (ref0 :: refs)) as [res [-> _]].
    split; [discriminate|]. intros [_ [_ H]]. discriminate H.
  - split.
    + intros [= ->]. repeat split; discriminate.
    + intros [_ [_ [= ->]]]. reflexivity.
Qed.

(** The two ways it returns. *)
Lemma compare_cases self res :
  compare_with_reference_servers mean stdev self = Return res ->
  ((exists message, res = CompareError message) <->
   (reference_results self = [] \/
    results self = [] \/
    forall service, service ∈ map fst REFERENCE_SERVERS ->
                    forall r, r ∈ reference_results self ->
                              of_service service r = false)) /\
  (forall c, res = Compared c ->
     comparison_analysis c
     = _analyze_comparison
         (valorant_avg_packet_loss c) (reference_avg_packet_loss c)
         (valorant_avg_latency c) (reference_avg_latency c)).
Proof.
  unfold compare_with_reference_servers.
  destruct (reference_results self) as [|ref0 refs] eqn:Href.
  { intros [= <-]. split; [|discriminate]. split; eauto. }
  destruct (results self) as [|r0 log] eqn:Hlog.
  { intros [= <-]. split; [|discriminate]. split; eauto. }
  destruct (calculate_stats mean stdev self) as [m|e'] eqn:Hm;
    cbn [mbind outcome_bind]; [|discriminate].
  destruct (stats_values_nonempty self m Hm) as [st [values Hv]];
    [congruence|].
  rewrite Hv.
  destruct (compare_values_spec st values (ref0 :: refs))
    as [res' [-> [Herr Hcmp]]].
  intros [= <-]. split; [|exact Hcmp].
  rewrite Herr. split.
  - intros H. right. right. exact H.
  - intros [H|[H|H]]; [discriminate H|discriminate H|exact H].
Qed.

(** It returns whenever [calculate_stats] does. *)
Lemma compare_returns self server_stats :
  calculate_stats mean stdev self = Return server_stats ->
  exists res, compare_with_reference_servers mean stdev self = Return res.
Proof.
  intros Hm.
  destruct (compare_with_reference_servers mean stdev self) as [res|e] eqn:Hrun;
    [eauto|].
  apply compare_raises in Hrun as [_ [_ Hrun]]. congruence.
Qed.

End ComparingFacts.


Lemma prefix_app (s t : string) : String.prefix s (String.append s t) = true.
Proof.
  induction s as [|c s IH]; cbn.
  - destruct t; reflexivity.
  - change (match ascii_dec c c with
            | left _ => String.prefix s (String.append s t)
            | right _ => false
            end = true).
    destruct (ascii_dec c c); [exact IH|contradiction].
Qed.

Lemma string_append_assoc (a b c : string) :
  String.append (String.append a b) c = String.append a (String.append b c).
Proof.
  induction a as [|ch a IH]; [reflexivity|].
  change (String ch (String.append (String.append a b) c)
          = String ch (String.append a (String.append b c))).
  rewrite IH. reflexivity.
Qed.

(** Every result of the reference loop carries the label of its service. *)
Lemma reference_probe_of_service now service server_ip r :
  of_service service (Schedule.reference_probe now (service, server_ip) r)
  = true.
Proof.
  unfold of_service, Schedule.reference_probe.
  cbn [server]. rewrite <- string_append_assoc. apply prefix_app.
Qed.

Section SchedulerMembers.
Context {S : Type} (mk : string -> S -> ping_outcome -> PingResult).
Variable P : PingResult -> Prop.

Lemma for_servers_Forall_in (servers : list S) :
  (forall now s r, s ∈ servers -> P (mk now s r)) ->
  forall answers log,
    Forall P log ->
    Forall P (fst (Schedule.for_servers mk servers answers log)).
Proof.
  induction servers as [|s servers IH]; intros Hmk [|a answers] log Hlog;
    cbn; try exact Hlog.
  apply IH.
  - intros now s' r Hs'. apply Hmk. constructor. exact Hs'.
  - apply Forall_app. split; [exact Hlog|].
    constructor; [apply Hmk; constructor | constructor].
Qed.

Lemma while_loop_Forall_in (servers : list S) (script : list pass) :
  (forall now s r, s ∈ servers -> P (mk now s r)) ->
  forall log,
    Forall P log -> Forall P (Schedule.while_loop mk servers script log).
Proof.
  intros Hmk.
  induction script as [|p script IH]; intros log Hlog; cbn; [exact Hlog|].
  pose proof (for_servers_Forall_in servers Hmk p log Hlog) as Hpass.
  destruct (Schedule.for_servers mk servers p log) as [log' completed].
  cbn in Hpass. destruct completed; [apply IH|]; exact Hpass.
Qed.

End SchedulerMembers.

(** Whether a result carries the label of one of the five services. *)
Lemma reference_log_labelled script self :
  Forall (fun r => exists service,
                     service ∈ map fst REFERENCE_SERVERS /\
                     of_service service r = true)
    (reference_results (test_reference_servers script self)).
Proof.
  unfold test_reference_servers. cbn [reference_results set_reference_results].
  apply while_loop_Forall_in; [|constructor].
  intros now [service server_ip] r Hin.
  exists service. split; [|apply reference_probe_of_service].
  apply (list_elem_of_fmap_2 fst) in Hin. cbn in Hin.
  exact Hin.
Qed.

(** With a [stdev] that accepts its data the statistics are always there. *)
Lemma calculate_stats_accepting mean deviation self :
  exists m, calculate_stats mean (accepting deviation) self = Return m.
Proof.
  apply calculate_stats_returns. intros srv _ _. eexists. reflexivity.
Qed.

(** After the two runs the comparison is not an error, once it returns. *)
Lemma compare_runs_compared mean stdev now reference_script target_script
    self c0 :
  reference_results
    (fst (run_continuous_test now target_script
            (test_reference_servers reference_script self))) <> [] ->
  results
    (fst (run_continuous_test now target_script
            (test_reference_servers reference_script self))) <> [] ->
  compare_with_reference_servers mean stdev
    (fst (run_continuous_test now target_script
            (test_reference_servers reference_script self)))
  = Return c0 ->
  exists c, c0 = Compared c.
Proof.
  intros Href Hlog Hrun.
  destruct c0 as [message|c]; [|eauto]. exfalso.
  destruct (compare_cases mean stdev _ _ Hrun) as [Herr _].
  destruct (proj1 Herr (ex_intro _ message eq_refl)) as [H|[H|H]];
    [contradiction|contradiction|].
  rewrite run_continuous_test_reference in H, Href.
    pose proof (reference_log_labelled reference_script self) as Hlab.
    destruct (reference_results (test_reference_servers reference_script self))
      as [|r refs]; [contradiction|].
    apply Forall_cons in Hlab as [[service [Hin Hof]] _].
    rewrite (H service Hin r) in Hof by constructor. discriminate Hof.
Qed.

(** X1: [compare_with_reference_servers] raises only what
    [calculate_stats] raises, once both logs hold a result, and returns
    whenever [calculate_stats] does.  When it returns, its answer is an
    error exactly when the reference log is empty, the target log is
    empty, or no reference result carries the label of a known service;
    otherwise the analysis it returns is [_analyze_comparison] of the four
    averages it reports. *)
Theorem compare_error_exactly_without_data :
  forall mean stdev self,
    (forall e,
        compare_with_reference_servers mean stdev self = Raise e <->
        reference_results self <> [] /\ results self <> [] /\
        calculate_stats mean stdev self = Raise e) /\
    (forall server_stats,
        calculate_stats mean stdev self = Return server_stats ->
        exists res,
          compare_with_reference_servers mean stdev self = Return res) /\
    (forall res,
        compare_with_reference_servers mean stdev self = Return res ->
        ((exists message, res = CompareError message) <->
         (reference_results self = [] \/
          results self = [] \/
          forall service, service ∈ map fst REFERENCE_SERVERS ->
                          forall r, r ∈ reference_results self ->
                                    of_service service r = false)) /\
        (forall c, res = Compared c ->
           comparison_analysis c
           = _analyze_comparison
               (valorant_avg_packet_loss c) (reference_avg_packet_loss c)
               (valorant_avg_latency c) (reference_avg_latency c))).
Proof.
  intros mean stdev self. split; [|split].
  - intros e. apply compare_raises.
  - intros m Hm. exact (compare_returns mean stdev self m Hm).
  - intros res Hres. exact (compare_cases mean stdev self res Hres).
Qed.

(** X2: once a reference run and a target run have each recorded at least
    one probe, the comparison is never an error: whenever the statistics
    of the run can be computed, and so for every [stdev] that accepts its
    data, it returns the four averages and their analysis. *)
Theorem compare_after_both_runs :
  forall mean now reference_script target_script self,
    let self' :=
      fst (run_continuous_test now target_script
             (test_reference_servers reference_script self)) in
    reference_results self' <> [] ->
    results self' <> [] ->
    (forall stdev server_stats,
        calculate_stats mean stdev self' = Return server_stats ->
        exists c,
          compare_with_reference_servers mean stdev self'
          = Return (Compared c) /\
          comparison_analysis c
          = _analyze_comparison
              (valorant_avg_packet_loss c) (reference_avg_packet_loss c)
              (valorant_avg_latency c) (reference_avg_latency c)) /\
    (forall deviation,
        exists c,
          compare_with_reference_servers mean (accepting deviation) self'
          = Return (Compared c) /\
          comparison_analysis c
          = _analyze_comparison
              (valorant_avg_packet_loss c) (reference_avg_packet_loss c)
              (valorant_avg_latency c) (reference_avg_latency c)).
Proof.
  intros mean now reference_script target_script self self' Href Hlog.
  assert (Hany : forall stdev server_stats,
             calculate_stats mean stdev self' = Return server_stats ->
             exists c,
               compare_with_reference_servers mean stdev self'
               = Return (Compared c) /\
               comparison_analysis c
               = _analyze_comparison
                   (valorant_avg_packet_loss c) (reference_avg_packet_loss c)
                   (valorant_avg_latency c) (reference_avg_latency c)).
  { intros stdev m Hm.
    destruct (compare_returns mean stdev self' m Hm) as [res Hres].
    destruct (compare_runs_compared mean stdev now reference_script
                target_script self res Href Hlog Hres) as [c ->].
    exists c. split; [exact Hres|].
    apply (proj2 (compare_cases mean stdev self' _ Hres)). reflexivity. }
  split; [exact Hany|].
  intros deviation.
  destruct (calculate_stats_accepting mean deviation self') as [m Hm].
  exact (Hany (accepting deviation) m Hm).
Qed.

(** One pass of each loop from a fresh tracker. *)
Lemma compare_after_both_runs_witness :
  exists c,
    compare_with_reference_servers Sample.first_or_zero
      (accepting Sample.first_or_zero)
      (fst (run_continuous_test "2024-05-01T12:05:00" Sample.one_pass
              (test_reference_servers Sample.one_pass (init 3 1))))
    = Return (Compared c) /\
    comparison_analysis c
    = _analyze_comparison
        (valorant_avg_packet_loss c) (reference_avg_packet_loss c)
        (valorant_avg_latency c) (reference_avg_latency c).
Proof.
  refine (proj2 (compare_after_both_runs Sample.first_or_zero
                   "2024-05-01T12:05:00" Sample.one_pass Sample.one_pass
                   (init 3 1) _ _) Sample.first_or_zero).
  - intros H. vm_compute in H. discriminate H.
  - intros H. vm_compute in H. discriminate H.
Defined.

(** ** More on the aggregator *)
Section AggregatorCounts.
Variable mean : list float -> float.
Variable stdev : list float -> outcome float.

(** What the loop body stores when it returns. *)
Lemma server_stats_of_shape log srv st :
  server_stats_of mean stdev log srv = Return st ->
  let server_results := filter (fun r => server r = srv) log in
  let total := Z.of_nat (length server_results) in
  let lost :=
    Z.of_nat (length (filter (fun r => packet_loss r = true)
                        server_results)) in
  total_packets st = total /\
  lost_packets st = lost /\
  (if (0 <? total)%Z
   then q ← Num.true_div lost total; Return (q * 100)%float
   else Return 0%float) = Return (packet_loss_rate st) /\
  match latencies_of log srv with
  | [] => min_latency st = 0%float /\ max_latency st = 0%float /\
          avg_latency st = 0%float /\ jitter st = 0%float
  | x :: rest =>
      min_latency st = py_min x rest /\ max_latency st = py_max x rest /\
      avg_latency st = mean (x :: rest) /\
      match rest with
      | [] => jitter st = 0%float
      | _ :: _ => stdev (x :: rest) = Return (jitter st)
      end
  end.
Proof.
  unfold server_stats_of, latencies_of. cbv zeta.
  set (server_results := filter (fun r => server r = srv) log).
  set (total := Z.of_nat (length server_results)).
  set (lost := Z.of_nat (length (filter _ server_results))).
  destruct (rate_returns lost total) as [rate Hrate]. rewrite Hrate.
  cbn [mbind outcome_bind].
  destruct (omap latency server_results) as [|x [|y rest]];
    cbn [mbind outcome_bind py_mean length Nat.ltb Nat.leb].
  - intros [= <-]. repeat split.
  - intros [= <-]. repeat split.
  - unfold py_stdev. cbn [length Nat.ltb Nat.leb].
    destruct (stdev (x :: y :: rest)) as [j|e]; cbn [mbind outcome_bind];
      [|discriminate].
    intros [= <-]. repeat split.
Qed.

Lemma server_stats_of_counts log srv st :
  server_stats_of mean stdev log srv = Return st ->
  total_packets st
  = Z.of_nat (length (filter (fun r => server r = srv) log)) /\
  lost_packets st
  = Z.of_nat (length (filter (fun r => packet_loss r = true)
                        (filter (fun r => server r = srv) log))).
Proof.
  intros Hrun.
  destruct (server_stats_of_shape log srv st Hrun) as [Htotal [Hlost _]].
  split; assumption.
Qed.

Lemma py_min_member x l : py_min x l ∈ x :: l.
Proof.
  unfold py_min. revert x.
  induction l as [|y l IH]; intros x; cbn [fold_left]; [constructor|].
  destruct (Num.lt y x).
  - apply list_elem_of_further. apply IH.
  - specialize (IH x). apply elem_of_cons in IH as [->|IH].
    + constructor.
    + do 2 apply list_elem_of_further. exact IH.
Qed.

Lemma py_max_member x l : py_max x l ∈ x :: l.
Proof.
  unfold py_max. revert x.
  induction l as [|y l IH]; intros x; cbn [fold_left]; [constructor|].
  destruct (Num.gt y x).
  - apply list_elem_of_further. apply IH.
  - specialize (IH x). apply elem_of_cons in IH as [->|IH].
    + constructor.
    + do 2 apply list_elem_of_further. exact IH.
Qed.

Lemma server_stats_of_extremes log srv st :
  server_stats_of mean stdev log srv = Return st ->
  match omap latency (filter (fun r => server r = srv) log) with
  | [] => min_latency st = 0%float /\ max_latency st = 0%float
  | [x] => min_latency st = x /\ max_latency st = x /\ jitter st = 0%float /\
           avg_latency st = mean [x]
  | successful => min_latency st ∈ successful /\ max_latency st ∈ successful
  end.
Proof.
  intros Hrun.
  destruct (server_stats_of_shape log srv st Hrun) as [_ [_ [_ Hshape]]].
  unfold latencies_of in Hshape.
  destruct (omap latency (filter (fun r => server r = srv) log))
    as [|x [|y rest]].
  - destruct Hshape as [Hmin [Hmax _]]. split; assumption.
  - destruct Hshape as [Hmin [Hmax [Havg Hjit]]].
    repeat split; assumption.
  - destruct Hshape as [-> [-> _]]. split.
    + apply (py_min_member x (y :: rest)).
    + apply (py_max_member x (y :: rest)).
Qed.

Lemma true_div_zero n : (0 < n)%Z -> Num.true_div 0 n = Return 0%float.
Proof.
  intros H. destruct n as [|p|p]; try lia. reflexivity.
Qed.

Lemma filter_packet_loss_none (l : list PingResult) :
  (forall r, r ∈ l -> packet_loss r = false) ->
  filter (fun r => packet_loss r = true) l = [].
Proof.
  induction l as [|r l IH]; intros H; [reflexivity|].
  rewrite filter_cons_False by (rewrite (H r) by constructor; discriminate).
  apply IH. intros r' Hr'. apply H. constructor. exact Hr'.
Qed.

Lemma server_stats_of_no_loss log srv st :
  srv ∈ map server log ->
  (forall r, r ∈ log -> server r = srv -> packet_loss r = false) ->
  server_stats_of mean stdev log srv = Return st ->
  packet_loss_rate st = 0%float /\ lost_packets st = 0%Z.
Proof.
  intros Hin Hnone Hrun.
  destruct (server_stats_of_shape log srv st Hrun) as [_ [Hlost [Hrate _]]].
  set (server_results := filter (fun r => server r = srv) log) in *.
  assert (Hne : (0 < Z.of_nat (length server_results))%Z).
  { apply list_elem_of_fmap in Hin as [r [-> Hr]].
    assert (Hr' : r ∈ server_results)
      by (apply list_elem_of_filter; auto).
    destruct server_results; [inversion Hr'|cbn; lia]. }
  rewrite filter_packet_loss_none in Hlost, Hrate.
  2,3: intros r Hr; apply list_elem_of_filter in Hr as [Hsrv Hr]; auto.
  split; [|exact Hlost].
  destruct (0 <? Z.of_nat (length server_results))%Z eqn:Hpos; [|lia].
  cbn [length Z.of_nat] in Hrate. rewrite true_div_zero in Hrate by exact Hne.
  cbn in Hrate. injection Hrate as <-. reflexivity.
Qed.

End AggregatorCounts.

(** X3: whenever [calculate_stats] returns, the mapping has exactly the
    servers of the log as its keys, and the entry of a server counts its
    results and those flagged lost: at least one result, and never more
    lost than total. *)
Theorem calculate_stats_keys_and_counts :
  forall mean stdev self server_stats,
    calculate_stats mean stdev self = Return server_stats ->
    (forall srv, is_Some (server_stats !! srv) <->
                 srv ∈ map server (results self)) /\
    (forall srv st,
        server_stats !! srv = Some st ->
        total_packets st
        = Z.of_nat (length (filter (fun r => server r = srv)
                              (results self))) /\
        lost_packets st
        = Z.of_nat (length (filter (fun r => packet_loss r = true)
                              (filter (fun r => server r = srv)
                                 (results self)))) /\
        (1 <= total_packets st)%Z /\
        (0 <= lost_packets st <= total_packets st)%Z).
Proof.
  intros mean stdev self m Hm.
  pose proof (calculate_stats_lookup mean stdev self m Hm) as Hlookup.
  split.
  - intros srv.
    destruct (decide (srv ∈ map server (results self))) as [Hin|Hout].
    + split; [auto|]. intros _.
      destruct (calculate_stats_entry mean stdev self m srv Hm Hin)
        as [st [_ Hst]].
      rewrite Hst. eauto.
    + rewrite Hlookup, decide_False by exact Hout.
      split; [intros [st Hst]; discriminate Hst | contradiction].
  - intros srv st Hst. rewrite Hlookup in Hst.
    destruct (decide (srv ∈ map server (results self))) as [Hin|Hout];
      [|discriminate Hst].
    unfold stored in Hst.
    destruct (server_stats_of mean stdev (results self) srv) as [st'|e]
      eqn:Hof; [|discriminate Hst].
    injection Hst as ->.
    destruct (server_stats_of_counts mean stdev _ _ _ Hof) as [Htotal Hlost].
    rewrite Htotal, Hlost.
    repeat split; try reflexivity.
    + apply list_elem_of_fmap in Hin as [r [-> Hr]].
      assert (Hr' : r ∈ filter (fun r0 => server r0 = server r) (results self))
        by (apply list_elem_of_filter; auto).
      destruct (filter (fun r0 => server r0 = server r) (results self));
        [inversion Hr'|cbn; lia].
    + lia.
    + apply Nat2Z.inj_le. apply length_filter.
Qed.

(** The statistics of the sample log with one dead Tokyo server. *)
Lemma calculate_stats_keys_and_counts_witness :
  exists server_stats,
    calculate_stats Sample.first_or_zero Sample.finite_only Sample.half_dead
    = Return server_stats /\
    (forall srv, is_Some (server_stats !! srv) <->
                 srv ∈ map server (results Sample.half_dead)) /\
    (forall srv st,
        server_stats !! srv = Some st ->
        total_packets st
        = Z.of_nat (length (filter (fun r => server r = srv)
                              (results Sample.half_dead))) /\
        lost_packets st
        = Z.of_nat (length (filter (fun r => packet_loss r = true)
                              (filter (fun r => server r = srv)
                                 (results Sample.half_dead)))) /\
        (1 <= total_packets st)%Z /\
        (0 <= lost_packets st <= total_packets st)%Z).
Proof.
  destruct (calculate_stats Sample.first_or_zero Sample.finite_only
              Sample.half_dead) as [server_stats|e] eqn:Hstats.
  - exists server_stats. split; [reflexivity|].
    exact (calculate_stats_keys_and_counts Sample.first_or_zero
             Sample.finite_only Sample.half_dead server_stats Hstats).
  - vm_compute in Hstats. discriminate Hstats.
Defined.

(** X4: whenever [calculate_stats] returns, an endpoint none of whose
    probes is flagged lost has a loss rate of exactly 0 and no lost
    packet. *)
Theorem calculate_stats_no_loss :
  forall mean stdev self srv server_stats,
    calculate_stats mean stdev self = Return server_stats ->
    srv ∈ map server (results self) ->
    (forall r, r ∈ results self -> server r = srv ->
               packet_loss r = false) ->
    exists st,
      server_stats !! srv = Some st /\
      packet_loss_rate st = 0%float /\
      lost_packets st = 0%Z.
Proof.
  intros mean stdev self srv m Hm Hin Hnone.
  destruct (calculate_stats_entry mean stdev self m srv Hm Hin)
    as [st [Hst Hlookup]].
  exists st. split; [exact Hlookup|].
  apply (server_stats_of_no_loss mean stdev _ _ _ Hin Hnone Hst).
Qed.

(** The answering Tokyo server of the sample log. *)
Lemma calculate_stats_no_loss_witness :
  exists server_stats st,
    calculate_stats Sample.first_or_zero Sample.finite_only Sample.half_dead
    = Return server_stats /\
    server_stats !! Sample.tokyo2 = Some st /\
    packet_loss_rate st = 0%float /\
    lost_packets st = 0%Z.
Proof.
  destruct (calculate_stats Sample.first_or_zero Sample.finite_only
              Sample.half_dead) as [server_stats|e] eqn:Hstats.
  - destruct (calculate_stats_no_loss Sample.first_or_zero Sample.finite_only
                Sample.half_dead Sample.tokyo2 server_stats Hstats)
      as [st Hst].
    + cbn. apply list_elem_of_further. constructor.
    + intros r Hr Hsrv. cbn in Hr.
      repeat (apply elem_of_cons in Hr as [->|Hr]);
        [discriminate Hsrv | reflexivity | discriminate Hsrv | inversion Hr].
    + exists server_stats, st. split; [reflexivity|exact Hst].
  - vm_compute in Hstats. discriminate Hstats.
Defined.

(** X5: the minimum and the maximum stored for an endpoint are latencies
    of its own successful probes; with a single successful probe both are
    that latency, the average is the mean of it alone and the jitter
    is 0. *)
Theorem calculate_stats_extremes :
  forall mean stdev self srv st server_stats,
    calculate_stats mean stdev self = Return server_stats ->
    server_stats !! srv = Some st ->
    match omap latency (filter (fun r => server r = srv) (results self)) with
    | [] => min_latency st = 0%float /\ max_latency st = 0%float
    | [x] => min_latency st = x /\ max_latency st = x /\
             jitter st = 0%float /\ avg_latency st = mean [x]
    | successful => min_latency st ∈ successful /\ max_latency st ∈ successful
    end.
Proof.
  intros mean stdev self srv st server_stats Hm Hst.
  rewrite (calculate_stats_lookup mean stdev self server_stats Hm) in Hst.
  destruct (decide (srv ∈ map server (results self))) as [Hin|Hout];
    [|discriminate Hst].
  unfold stored in Hst.
  destruct (server_stats_of mean stdev (results self) srv) as [st'|err]
    eqn:Hof; [|discriminate Hst].
  injection Hst as ->.
  exact (server_stats_of_extremes mean stdev _ _ _ Hof).
Qed.

(** The answering Tokyo server again: one success at 21.5 ms. *)
Lemma calculate_stats_extremes_witness :
  exists st,
    min_latency st = 21.5%float /\ max_latency st = 21.5%float /\
    jitter st = 0%float /\
    avg_latency st = Sample.first_or_zero [21.5%float].
Proof.
  destruct (calculate_stats Sample.first_or_zero Sample.finite_only
              Sample.half_dead) as [server_stats|e] eqn:Hstats.
  - destruct (calculate_stats_entry Sample.first_or_zero Sample.finite_only
                Sample.half_dead server_stats Sample.tokyo2 Hstats)
      as [st [_ Hst]].
    + cbn. apply list_elem_of_further. constructor.
    + exists st.
      exact (calculate_stats_extremes Sample.first_or_zero Sample.finite_only
               Sample.half_dead Sample.tokyo2 st server_stats Hstats Hst).
  - vm_compute in Hstats. discriminate Hstats.
Defined.

(** ** More on the scheduler *)
Section CompletePasses.
Context {S : Type} (mk : string -> S -> ping_outcome -> PingResult).

Lemma for_servers_complete (servers : list S) :
  forall p log,
    length p = length servers ->
    Schedule.for_servers mk servers p log
    = (log ++ pass_results mk servers p, true).
Proof.
  induction servers as [|s servers IH]; intros [|a p] log Hlen;
    try discriminate Hlen; cbn.
  - rewrite app_nil_r. reflexivity.
  - rewrite IH by (cbn in Hlen; lia).
    rewrite <- app_assoc. reflexivity.
Qed.

Lemma while_loop_complete (servers : list S) (script : list pass) :
  forall log,
    Forall (fun p => length p = length servers) script ->
    Schedule.while_loop mk servers script log
    = log ++ flat_map (pass_results mk servers) script.
Proof.
  induction script as [|p script IH]; intros log Hall; cbn.
  - rewrite app_nil_r. reflexivity.
  - apply Forall_cons in Hall as [Hp Hall].
    rewrite for_servers_complete by exact Hp.
    rewrite IH by exact Hall. rewrite <- app_assoc. reflexivity.
Qed.

End CompletePasses.

Lemma ping_server_fields now server_ip r :
  server (ping_server now server_ip r) = server_ip /\
  timestamp (ping_server now server_ip r) = now.
Proof. destruct r; split; reflexivity. Qed.

Lemma pass_results_servers (servers : list string) :
  forall p,
    length p = length servers ->
    map server (pass_results ping_server servers p) = servers /\
    map timestamp (pass_results ping_server servers p) = map at_time p.
Proof.
  induction servers as [|s servers IH]; intros [|a p] Hlen;
    try discriminate Hlen; [split; reflexivity|].
  destruct (IH p) as [Hs Ht]; [cbn in Hlen; lia|].
  unfold pass_results in *. cbn [zip_with map].
  destruct (ping_server_fields (at_time a) s (reply a)) as [-> ->].
  rewrite Hs, Ht. split; reflexivity.
Qed.

Lemma complete_script_servers (servers : list string) (script : list pass) :
  Forall (fun p => length p = length servers) script ->
  map server (flat_map (pass_results ping_server servers) script)
  = concat (replicate (length script) servers) /\
  map timestamp (flat_map (pass_results ping_server servers) script)
  = map at_time (concat script).
Proof.
  induction script as [|p script IH]; intros Hall; [split; reflexivity|].
  apply Forall_cons in Hall as [Hp Hall].
  destruct (IH Hall) as [Hs Ht].
  destruct (pass_results_servers servers p Hp) as [Hs0 Ht0].
  cbn [flat_map length replicate concat].
  rewrite !map_app, Hs, Ht, Hs0, Ht0. split; reflexivity.
Qed.

(** X6: when no pass of a target run is cut short, the log it leaves is
    the passes one after the other: the servers of the region repeated
    once per pass, in their table order, each result carrying the
    timestamp of its own probe, so [passes * servers] results in all. *)
Theorem complete_run_in_probe_order :
  forall now script self servers,
    Schedule.getitem (current_region self) VALORANT_SERVERS = Some servers ->
    Forall (fun p => length p = length servers) script ->
    let log := results (fst (run_continuous_test now script self)) in
    log = flat_map (pass_results ping_server servers) script /\
    map server log = concat (replicate (length script) servers) /\
    map timestamp log = map at_time (concat script) /\
    length log = (length script * length servers)%nat.
Proof.
  intros now script self servers Hregion Hall log. subst log.
  rewrite run_continuous_test_results, Hregion.
  rewrite while_loop_complete by exact Hall. cbn [app].
  destruct (complete_script_servers servers script Hall) as [Hs Ht].
  repeat split; try assumption.
  rewrite <- (length_map server), Hs.
  clear. induction script as [|p script IH]; [reflexivity|].
  cbn [length replicate concat]. rewrite length_app, IH. reflexivity.
Qed.

(** One pass over the two Tokyo servers. *)
Lemma complete_run_in_probe_order_witness :
  map server
    (results (fst (run_continuous_test "2024-05-01T12:00:00" Sample.one_pass
                     (init 3 1))))
  = concat (replicate 1 [Sample.tokyo1; Sample.tokyo2]) /\
  length (results (fst (run_continuous_test "2024-05-01T12:00:00"
                          Sample.one_pass (init 3 1)))) = (1 * 2)%nat.
Proof.
  assert (Hregion : Schedule.getitem (current_region (init 3 1))
                      VALORANT_SERVERS
                    = Some [Sample.tokyo1; Sample.tokyo2]) by reflexivity.
  assert (Hall : Forall (fun p : pass => length p = 2%nat) Sample.one_pass)
    by (repeat constructor).
  destruct (complete_run_in_probe_order "2024-05-01T12:00:00" Sample.one_pass
              (init 3 1) [Sample.tokyo1; Sample.tokyo2] Hregion Hall)
    as [_ [Hs [_ Hl]]].
  split; [exact Hs | exact Hl].
Defined.

(** ** The region stays one of the table *)


Lemma estimate_region_cases self :
  _estimate_region_from_servers self = self \/
  exists region servers,
    In (region, servers) VALORANT_SERVERS /\
    _estimate_region_from_servers self = set_current_region region self.
Proof.
  unfold _estimate_region_from_servers.
  destruct (results self); [left; reflexivity|].
  match goal with
  | |- context [List.find ?f ?l] => destruct (List.find f l) as [[region servers]|] eqn:Hfind
  end.
  - right. exists region, servers. split; [|reflexivity].
    apply find_some in Hfind as [Hin _]. exact Hin.
  - left. reflexivity.
Qed.





(** ** Export then import, for every log *)
Section ExactRoundTrip.
Variable float_str : float -> string.
Variable float_of_str : string -> option float.

Lemma latency_cell_reimported r :
  readable float_str float_of_str r ->
  parse_latency float_of_str (Some (latency_cell float_str (latency r)))
  = Return (latency (reimported r)).
Proof.
  unfold readable, latency_cell, parse_latency, reimported. cbn [latency].
  destruct (latency r) as [x|]; [|intros _; reflexivity].
  intros Hread. destruct (Num.truthy x) eqn:Htruthy; [|reflexivity].
  destruct (Hread x eq_refl Htruthy) as [Hna Hback].
  destruct (String.eqb_spec (float_str x) "N/A") as [E|E]; [contradiction|].
  rewrite Hback. reflexivity.
Qed.

Lemma read_rows_reimported log :
  forall imported_results,
    Forall (readable float_str float_of_str) log ->
    read_rows float_of_str csv_header (map (csv_row float_str) log)
      imported_results
    = Return (imported_results ++ map reimported log).
Proof.
  induction log as [|r log IH]; intros imported_results Hlog; cbn [map].
  - cbn. rewrite app_nil_r. reflexivity.
  - apply Forall_cons in Hlog as [Hr Hlog].
    unfold csv_row at 1. cbn [read_rows].
    rewrite parse_row_exported, latency_cell_reimported by exact Hr.
    rewrite !flag_roundtrip. cbn [mbind outcome_bind].
    rewrite IH by exact Hlog. rewrite <- app_assoc. reflexivity.
Qed.

End ExactRoundTrip.

Lemma estimate_region_results self :
  results (_estimate_region_from_servers self) = results self /\
  reference_results (_estimate_region_from_servers self)
  = reference_results self /\
  start_time (_estimate_region_from_servers self) = start_time self /\
  is_running (_estimate_region_from_servers self) = is_running self.
Proof.
  destruct (estimate_region_cases self) as [->|[region [servers [_ ->]]]];
    repeat split.
Qed.


(** Importing the file [save_results] wrote, into a tracker without
    results. *)
Lemma import_saved_csv float_str float_of_str choice filename self d fresh :
  results self <> [] ->
  Forall (readable float_str float_of_str) (results self) ->
  results fresh = [] ->
  _import_csv_results float_of_str choice
    (save_results float_str filename self d)
    (String.append filename ".csv") fresh
  = (_estimate_region_from_servers
       (set_results (map reimported (results self)) fresh),
     Return true).
Proof.
  intros Hne Hread Hfresh.
  unfold _import_csv_results, save_results.
  destruct (results self) as [|r log] eqn:Hlog; [contradiction|].
  lazy beta iota. unfold disk in *. rewrite lookup_insert_eq.
  cbn [csv_rows]. unfold read_csv.
  rewrite (read_rows_reimported float_str float_of_str (r :: log) [])
    by exact Hread.
  rewrite Hfresh. reflexivity.
Qed.



(** ** The region of an imported log *)

Ltac absent_servers Hsub :=
  repeat match goal with
         | |- context [bool_decide (?c ∈ ?u)] =>
             rewrite (bool_decide_eq_false_2 (c ∈ u))
               by (let H := fresh in
                   intros H; apply Hsub in H;
                   repeat (apply elem_of_cons in H as [H|H];
                           [discriminate H|]);
                   inversion H)
         end.

(** No two regions of the table share a server, so a log of one region's
    servers is recognised as that region. *)
Lemma estimate_finds_region self region servers :
  Schedule.getitem region VALORANT_SERVERS = Some servers ->
  results self <> [] ->
  (forall r, r ∈ results self -> server r ∈ servers) ->
  current_region (_estimate_region_from_servers self) = region.
Proof.
  intros Hregion Hne Hall. unfold _estimate_region_from_servers.
  destruct (results self) as [|r0 log] eqn:Hlog; [contradiction|].
  set (used := list_to_set (map server (r0 :: log)) : gset string).
  assert (Hsub : forall s, s ∈ used -> s ∈ servers).
  { intros s Hs. apply elem_of_list_to_set in Hs.
    apply list_elem_of_fmap in Hs as [r [-> Hr]]. apply Hall, Hr. }
  assert (Hhead : server r0 ∈ used).
  { apply elem_of_list_to_set. cbn. constructor. }
  pose proof (Hall r0 ltac:(constructor)) as Hr0.
  clearbody used. clear Hall Hlog Hne.
  unfold VALORANT_SERVERS in Hregion. cbn [Schedule.getitem] in Hregion.
  repeat match type of Hregion with
         | (if String.eqb ?k region then _ else _) = _ =>
             destruct (String.eqb_spec k region) as [?|?];
             [ injection Hregion as <-; subst region;
               unfold VALORANT_SERVERS; cbn [List.find existsb];
               absent_servers Hsub;
               apply elem_of_cons in Hr0 as [Hr0|Hr0];
               [ | apply elem_of_cons in Hr0 as [Hr0|Hr0];
                   [|inversion Hr0] ];
               rewrite Hr0 in Hhead;
               rewrite (bool_decide_eq_true_2 _ Hhead);
               repeat match goal with
                      | |- context [bool_decide ?P] => destruct (bool_decide P)
                      end;
               reflexivity
             | ]
         end.
  discriminate Hregion.
Qed.

Lemma run_results_servers now script self servers :
  Schedule.getitem (current_region self) VALORANT_SERVERS = Some servers ->
  forall r, r ∈ results (fst (run_continuous_test now script self)) ->
            server r ∈ servers.
Proof.
  intros Hregion. rewrite run_continuous_test_results, Hregion.
  apply Forall_forall.
  apply (while_loop_Forall_in ping_server (fun r => server r ∈ servers));
    [|constructor].
  intros t s r Hs. destruct (ping_server_fields t s r) as [-> _]. exact Hs.
Qed.

(** X9: the region survives a save and an import.  The log of a target
    run that recorded at least one probe, saved and then imported into a
    tracker without results, sets [current_region] back to the region of
    the run, whatever region that tracker had. *)
Theorem region_restored_by_import :
  forall float_str float_of_str choice now script filename self d fresh
         servers,
    Schedule.getitem (current_region self) VALORANT_SERVERS = Some servers ->
    let after := fst (run_continuous_test now script self) in
    results after <> [] ->
    Forall (readable float_str float_of_str) (results after) ->
    results fresh = [] ->
    current_region
      (fst (_import_csv_results float_of_str choice
              (save_results float_str filename after d)
              (String.append filename ".csv") fresh))
    = current_region self.
Proof.
  intros float_str float_of_str choice now script filename self d fresh
         servers Hregion after Hne Hread Hfresh.
  rewrite import_saved_csv by assumption. cbn [fst].
  apply (estimate_finds_region _ _ servers Hregion).
  - cbn [results set_results].
    destruct (results after); [contradiction|discriminate].
  - cbn [results set_results]. intros r Hr.
    apply list_elem_of_fmap in Hr as [r' [-> Hr']]. cbn [reimported server].
    apply (run_results_servers now script self servers Hregion r' Hr').
Qed.

(** A Seoul run, imported into a fresh tracker (whose region is Tokyo). *)
Lemma region_restored_by_import_witness :
  current_region
    (fst (_import_csv_results Sample.no_float ""
            (save_results (fun _ => "")  "seoul"
               (fst (run_continuous_test "2024-05-01T12:00:00"
                       [[mkProbe "2024-05-01T12:00:00" NoReply]]
                       (select_region (Return 2%Z) (init 3 1))))
               ∅)
            (String.append "seoul" ".csv") (init 3 1)))
  = "Seoul (Korea)".
Proof.
  apply (region_restored_by_import (fun _ => "") Sample.no_float ""
           "2024-05-01T12:00:00" [[mkProbe "2024-05-01T12:00:00" NoReply]]
           "seoul" (select_region (Return 2%Z) (init 3 1)) ∅ (init 3 1)
           ["43.201.103.1"; "13.124.145.30"]).
  - reflexivity.
  - discriminate.
  - apply Forall_cons. split; [|constructor].
    intros x Hx. discriminate Hx.
  - reflexivity.
Defined.

(** ** File names *)

Lemma string_length_append (a b : string) :
  String.length (String.append a b)
  = (String.length a + String.length b)%nat.
Proof.
  induction a as [|c a IH]; [reflexivity|].
  change (S (String.length (String.append a b))
          = S (String.length a + String.length b)).
  rewrite IH. reflexivity.
Qed.

Lemma substring_append_skip (a b : string) (k m : nat) :
  substring (String.length a + k) m (String.append a b) = substring k m b.
Proof.
  induction a as [|c a IH]; [reflexivity|].
  change (substring (String.length a + k) m (String.append a b)
          = substring k m b).
  exact IH.
Qed.

(** Whether a name ends with a suffix is decided by its last characters. *)
Lemma endswith_append (a b suffix : string) :
  (String.length suffix <= String.length b)%nat ->
  Str.endswith (String.append a b) suffix = Str.endswith b suffix.
Proof.
  intros Hlen. unfold Str.endswith.
  rewrite string_length_append.
  replace (String.length a + String.length b - String.length suffix)%nat
    with (String.length a + (String.length b - String.length suffix))%nat
    by lia.
  rewrite substring_append_skip.
  destruct (Nat.leb_spec (String.length suffix) (String.length b)); [|lia].
  destruct (Nat.leb_spec (String.length suffix)
              (String.length a + String.length b)); [|lia].
  reflexivity.
Qed.

Lemma string_append_inj (a b c : string) :
  String.append a b = String.append a c -> b = c.
Proof.
  induction a as [|ch a IH]; [auto|].
  intros H. apply IH.
  change (String ch (String.append a b) = String ch (String.append a c)) in H.
  injection H as H. exact H.
Qed.

(** ** The statistics file, written and read back *)
Section StatsFile.
Variable mean : list float -> float.
Variable stdev : list float -> outcome float.
Variable markup : string -> string -> bool.
Variable csv_view : json -> list (list string).
Variable elapsed_minutes : string -> outcome float.
Variable float_str : float -> string.
Variable float_of_str : string -> option float.
Variable fromisoformat : string -> option string.

Lemma display_exported_rows (items : list (string * NetworkStats)) :
  display_stats_rows
    (map (fun entry => (fst entry, stats_json (snd entry))) items)
  = Return tt.
Proof.
  induction items as [|[srv st] items IH]; [reflexivity|].
  cbn [map fst snd display_stats_rows].
  change (display_stats_row (stats_json st)) with (Return (A := unit) tt).
  cbn [mbind outcome_bind]. exact IH.
Qed.

Ltac run_import :=
  lazy [ mbind action_bind outcome_bind pure when update
         restore_test_info restore_region restore_start_time
         start_time_given show_server_stats display_server_stats
         json_contains json_getitem json_truthy Schedule.getitem
         existsb String.eqb Ascii.eqb Bool.eqb andb orb negb ].

(** Reading a document of the shape [save_results] writes. *)
Lemma import_document region started dur items d name rows fresh :
  d !! name
  = Some (mkFile rows
            (Some (JObj [ ("test_info",
                           JObj [ ("region", JStr region);
                                  ("start_time",
                                   match started with
                                   | Some t => JStr t
                                   | None => JNull
                                   end);
                                  ("duration_minutes", JNum dur) ]);
                          ("server_stats", JObj items) ]))) ->
  (forall t, started = Some t -> t <> "" /\ fromisoformat t = Some t) ->
  display_stats_rows items = Return tt ->
  _import_json_stats fromisoformat d name fresh
  = (set_start_time
       match started with
       | Some t => Some t
       | None => start_time fresh
       end
       (set_current_region region fresh),
     Return true).
Proof.
  intros Hfile Hstart Hitems. unfold _import_json_stats. rewrite Hfile.
  cbn [json_doc].
  destruct started as [t|].
  - destruct (Hstart t eq_refl) as [Hne Hiso].
    destruct t as [|c t]; [contradiction|].
    run_import. rewrite Hiso. run_import. rewrite Hitems. reflexivity.
  - run_import. rewrite Hitems. destruct fresh; reflexivity.
Qed.

(** The dispatch of [import_results] on the name of a statistics file. *)
Lemma import_results_stats_file typed choice d filename fresh :
  import_results float_of_str fromisoformat markup typed choice d
    (Some (String.append filename "_stats.json")) fresh
  = let '(self', r) :=
      match console_print markup "cyan"
              (String.append filename "_stats.json") with
      | Return _ =>
          _import_json_stats fromisoformat d
            (String.append filename "_stats.json") fresh
      | Raise e => (fresh, Raise e)
      end in
    match r with
    | Return b => (self', Return b)
    | Raise IllTyped => (self', Raise IllTyped)
    | Raise FileNotFoundError =>
        (self', _ ← console_print markup "red"
                      (String.append filename "_stats.json");
                Return false)
    | Raise e => (self', _ ← print_import_error markup e; Return false)
    end.
Proof.
  unfold import_results.
  rewrite (endswith_append filename "_stats.json" ".csv") by (cbn; lia).
  rewrite (endswith_append filename "_stats.json" "_stats.json")
    by (cbn; lia).
  change (Str.endswith "_stats.json" ".csv") with false.
  change (Str.endswith "_stats.json" "_stats.json") with true.
  cbn [orb]. rewrite announce_then. reflexivity.
Qed.

(** What a save that returned has written, read back. *)
Lemma save_then_import_stats typed choice filename self d d' fresh :
  results self <> [] ->
  save_results_files mean stdev markup csv_view elapsed_minutes float_str
    filename self d = (d', Return tt) ->
  console_print markup "cyan" (String.append filename "_stats.json")
  = Return tt ->
  (forall t, start_time self = Some t ->
             t <> "" /\ fromisoformat t = Some t) ->
  import_results float_of_str fromisoformat markup typed choice d'
    (Some (String.append filename "_stats.json")) fresh
  = (set_start_time
       match start_time self with
       | Some t => Some t
       | None => start_time fresh
       end
       (set_current_region (current_region self) fresh),
     Return true).
Proof.
  intros Hne Hsave Hprint Hstart.
  unfold save_results_files, save_results_json in Hsave.
  destruct (results self) as [|r log] eqn:Hlog; [contradiction|].
  destruct (calculate_stats mean stdev self) as [m|e]; [|discriminate Hsave].
  destruct (duration_of elapsed_minutes self) as [dur|e];
    [|discriminate Hsave].
  injection Hsave as <- _.
  rewrite import_results_stats_file, Hprint.
  rewrite (import_document (current_region self) (start_time self) dur
             (map (fun entry => (fst entry, stats_json (snd entry)))
                (stats_items self m))
             _ _ (csv_view (stats_document dur self m)) fresh).
  - reflexivity.
  - unfold disk in *. rewrite lookup_insert_eq. reflexivity.
  - exact Hstart.
  - apply display_exported_rows.
Qed.

(** A save that stopped at the duration has left an empty file. *)
Lemma save_without_duration filename self d m e :
  results self <> [] ->
  calculate_stats mean stdev self = Return m ->
  duration_of elapsed_minutes self = Raise e ->
  save_results_files mean stdev markup csv_view elapsed_minutes float_str
    filename self d
  = (<[ String.append filename "_stats.json" := mkFile [] None ]>
       (save_results float_str filename self d),
     Raise e).
Proof.
  intros Hne Hm He. unfold save_results_files, save_results_json.
  destruct (results self) as [|r log] eqn:Hlog; [contradiction|].
  rewrite Hm, He. reflexivity.
Qed.

Lemma import_empty_stats_file typed choice filename d fresh :
  console_print markup "cyan" (String.append filename "_stats.json")
  = Return tt ->
  import_results float_of_str fromisoformat markup typed choice
    (<[ String.append filename "_stats.json" := mkFile [] None ]> d)
    (Some (String.append filename "_stats.json")) fresh
  = (fresh, Return false).
Proof.
  intros Hprint. rewrite import_results_stats_file, Hprint.
  unfold _import_json_stats. unfold disk in *.
  rewrite lookup_insert_eq. reflexivity.
Qed.

End StatsFile.

Lemma run_continuous_test_start now script self :
  start_time (fst (run_continuous_test now script self)) = Some now /\
  current_region (fst (run_continuous_test now script self))
  = current_region self.
Proof.
  unfold run_continuous_test.
  cbn [current_region results set_results set_start_time set_is_running].
  destruct (Schedule.getitem (current_region self) VALORANT_SERVERS);
    [destruct script|]; split; reflexivity.
Qed.

(** X10: the statistics file of a run goes back in.  When [save_results]
    returned for the log of a run and rich accepts the name of the
    statistics file, importing that file into any tracker succeeds: it
    sets [current_region] to the region of the run and [start_time] to its
    start (given that [fromisoformat] reads the text back) and nothing
    else; no result log is rebuilt from it.  When the statistics were
    computed and the duration was not, the save raises after emptying the
    file, and importing what it left fails and changes nothing. *)
Theorem stats_file_roundtrip :
  forall mean stdev markup csv_view elapsed_minutes float_str float_of_str
         fromisoformat typed choice now script filename self d fresh,
    let after := fst (run_continuous_test now script self) in
    let json_file := String.append filename "_stats.json" in
    results after <> [] ->
    console_print markup "cyan" json_file = Return tt ->
    (forall d',
        save_results_files mean stdev markup csv_view elapsed_minutes
          float_str filename after d = (d', Return tt) ->
        now <> "" ->
        fromisoformat now = Some now ->
        import_results float_of_str fromisoformat markup typed choice d'
          (Some json_file) fresh
        = (set_start_time (Some now)
             (set_current_region (current_region self) fresh),
           Return true)) /\
    (forall server_stats e,
        calculate_stats mean stdev after = Return server_stats ->
        elapsed_minutes now = Raise e ->
        save_results_files mean stdev markup csv_view elapsed_minutes
          float_str filename after d
        = (<[ json_file := mkFile [] None ]>
             (save_results float_str filename after d),
           Raise e) /\
        import_results float_of_str fromisoformat markup typed choice
          (<[ json_file := mkFile [] None ]>
             (save_results float_str filename after d))
          (Some json_file) fresh
        = (fresh, Return false)).
Proof.
  intros mean stdev markup csv_view elapsed_minutes float_str float_of_str
         fromisoformat typed choice now script filename self d fresh
         after json_file Hne Hprint.
  destruct (run_continuous_test_start now script self) as [Hstart Hregion].
  fold after in Hstart, Hregion. subst json_file. split.
  - intros d' Hsave Hnow Hiso.
    rewrite (save_then_import_stats mean stdev markup csv_view
               elapsed_minutes float_str float_of_str fromisoformat
               typed choice filename after d d' fresh Hne Hsave Hprint).
    + rewrite Hstart, Hregion. reflexivity.
    + intros t Ht. rewrite Hstart in Ht. injection Ht as <-. auto.
  - intros m e Hm He. split.
    + apply (save_without_duration mean stdev markup csv_view
               elapsed_minutes float_str filename after d m e Hne Hm).
      unfold duration_of. rewrite Hstart. exact He.
    + apply import_empty_stats_file. exact Hprint.
Qed.

(** One pass over the Tokyo servers, saved and read back by a tracker set
    to Seoul. *)
Lemma stats_file_roundtrip_witness :
  exists d',
    save_results_files Sample.first_or_zero Sample.finite_only
      (fun _ _ => false) (fun _ => []) (fun _ => Return 5%float)
      (fun _ => "20.0") "demo"
      (fst (run_continuous_test "2024-05-01T12:00:00" Sample.one_pass
              (init 3 1))) ∅
    = (d', Return tt) /\
    import_results Sample.no_float Some (fun _ _ => false) "" "" d'
      (Some (String.append "demo" "_stats.json"))
      (select_region (Return 2%Z) (init 3 1))
    = (set_start_time (Some "2024-05-01T12:00:00")
         (set_current_region "Tokyo (Japan)"
            (select_region (Return 2%Z) (init 3 1))),
       Return true).
Proof.
  destruct (save_results_files Sample.first_or_zero Sample.finite_only
              (fun _ _ => false) (fun _ => []) (fun _ => Return 5%float)
              (fun _ => "20.0") "demo"
              (fst (run_continuous_test "2024-05-01T12:00:00" Sample.one_pass
                      (init 3 1))) ∅) as [d' [[]|e]] eqn:Hsave.
  - exists d'. split; [reflexivity|].
    apply (proj1 (stats_file_roundtrip Sample.first_or_zero
                    Sample.finite_only (fun _ _ => false) (fun _ => [])
                    (fun _ => Return 5%float) (fun _ => "20.0")
                    Sample.no_float Some "" "" "2024-05-01T12:00:00"
                    Sample.one_pass "demo" (init 3 1) ∅
                    (select_region (Return 2%Z) (init 3 1))
                    ltac:(discriminate) eq_refl) d' Hsave).
    + discriminate.
    + reflexivity.
  - exfalso. vm_compute in Hsave. discriminate Hsave.
Defined.

(** ** What an import leaves alone *)

Lemma same_logs_refl self : same_logs self self.
Proof. repeat split. Qed.

Lemma same_logs_trans a b c : same_logs a b -> same_logs b c -> same_logs a c.
Proof.
  unfold same_logs. intros [? [? [? [? ?]]]] [? [? [? [? ?]]]].
  repeat split; congruence.
Qed.

Lemma keeps_pure {A : Type} (m : outcome A) : keeps_logs (pure m).
Proof. intros self. apply same_logs_refl. Qed.

Lemma keeps_update_region region :
  keeps_logs (update (set_current_region region)).
Proof. intros self. repeat split. Qed.

Lemma keeps_update_start t : keeps_logs (update (set_start_time t)).
Proof. intros self. repeat split. Qed.

Lemma keeps_bind {A B : Type} (m : action A) (f : A -> action B) :
  keeps_logs m -> (forall a, keeps_logs (f a)) ->
  keeps_logs (action_bind A B f m).
Proof.
  intros Hm Hf self. unfold action_bind.
  specialize (Hm self). destruct (m self) as [self' [a|e]]; cbn [fst] in *.
  - eapply same_logs_trans; [apply Hf|exact Hm].
  - exact Hm.
Qed.

Lemma keeps_when b (m : action unit) : keeps_logs m -> keeps_logs (when b m).
Proof. intros Hm. destruct b; [exact Hm|apply keeps_pure]. Qed.

Section ImportFrames.
Variable fromisoformat : string -> option string.

Lemma keeps_restore_region test_info : keeps_logs (restore_region test_info).
Proof.
  apply keeps_bind; [apply keeps_pure|].
  intros v. destruct v; try apply keeps_pure. apply keeps_update_region.
Qed.

Lemma keeps_restore_start_time test_info :
  keeps_logs (restore_start_time fromisoformat test_info).
Proof.
  apply keeps_bind; [apply keeps_pure|].
  intros v. destruct v; try apply keeps_pure.
  destruct (fromisoformat s); [apply keeps_update_start|apply keeps_pure].
Qed.

Lemma keeps_restore_test_info data :
  keeps_logs (restore_test_info fromisoformat data).
Proof.
  apply keeps_bind; [apply keeps_pure|]. intros test_info.
  apply keeps_bind; [apply keeps_pure|]. intros has_region.
  apply keeps_bind; [apply keeps_when, keeps_restore_region|]. intros _.
  apply keeps_bind; [apply keeps_pure|]. intros has_start.
  apply keeps_bind; [apply keeps_pure|]. intros given.
  apply keeps_when, keeps_restore_start_time.
Qed.

Lemma keeps_import_json d name :
  keeps_logs (_import_json_stats fromisoformat d name).
Proof.
  unfold _import_json_stats.
  destruct (d !! name) as [f|]; [|apply keeps_pure].
  destruct (json_doc f) as [data|]; [|apply keeps_pure].
  apply keeps_bind; [apply keeps_pure|]. intros has_info.
  apply keeps_bind; [apply keeps_when, keeps_restore_test_info|]. intros _.
  apply keeps_bind; [apply keeps_pure|]. intros has_stats.
  apply keeps_bind; [|intros _; apply keeps_pure].
  apply keeps_when.
  apply keeps_bind; [apply keeps_pure|]. intros v. apply keeps_pure.
Qed.

End ImportFrames.

(** X11: an import touches only what it is for.  The statistics import
    never changes [results], [reference_results], [is_running] or the
    settings, whatever the file holds and whether it succeeds or not.
    The tabular import never changes [reference_results], [start_time],
    [is_running] or the settings; when it succeeds, the new log is the
    rows of the file, put after the old log when there was one and the
    answer to the prompt was not [y], and in place of it otherwise. *)
Theorem imports_touch_only_their_part :
  forall float_of_str fromisoformat choice d name self,
    same_logs (fst (_import_json_stats fromisoformat d name self)) self /\
    (let after := fst (_import_csv_results float_of_str choice d name self) in
     reference_results after = reference_results self /\
     start_time after = start_time self /\
     is_running after = is_running self /\
     self_timeout after = self_timeout self /\
     interval after = interval self) /\
    (snd (_import_csv_results float_of_str choice d name self) = Return true ->
     exists f imported,
       d !! name = Some f /\
       read_csv float_of_str (csv_rows f) = Return imported /\
       results (fst (_import_csv_results float_of_str choice d name self))
       = match results self with
         | [] => imported
         | _ :: _ => if String.eqb choice "y" then imported
                     else results self ++ imported
         end).
Proof.
  intros float_of_str fromisoformat choice d name self.
  split; [apply keeps_import_json|].
  unfold _import_csv_results.
  destruct (d !! name) as [f|] eqn:Hfile;
    [|split; [repeat split|discriminate]].
  destruct (read_csv float_of_str (csv_rows f)) as [imported|e] eqn:Hread;
    [|split; [repeat split|discriminate]].
  cbn [fst snd]. split.
  - destruct (estimate_region_results
                match results self with
                | [] => set_results imported self
                | _ :: _ =>
                    if negb (String.eqb choice "y")
                    then set_results (results self ++ imported) self
                    else set_results imported self
                end) as [_ [-> [-> Hrun]]].
    destruct (estimate_region_cases
                match results self with
                | [] => set_results imported self
                | _ :: _ =>
                    if negb (String.eqb choice "y")
                    then set_results (results self ++ imported) self
                    else set_results imported self
                end) as [->|[region [servers [_ ->]]]];
      destruct (results self); try destruct (String.eqb choice "y");
      repeat split.
  - intros _. exists f, imported. split; [reflexivity|]. split; [exact Hread|].
    destruct (estimate_region_results
                match results self with
                | [] => set_results imported self
                | _ :: _ =>
                    if negb (String.eqb choice "y")
                    then set_results (results self ++ imported) self
                    else set_results imported self
                end) as [-> _].
    destruct (results self); [reflexivity|].
    destruct (String.eqb choice "y"); reflexivity.
Qed.

(** The odd sample file, imported on top of a log with the default
    answer. *)
Lemma imports_touch_only_their_part_witness :
  exists f imported,
    Sample.odd_disk !! "log.csv" = Some f /\
    read_csv Sample.no_float (csv_rows f) = Return imported /\
    results (fst (_import_csv_results Sample.no_float "" Sample.odd_disk
                    "log.csv" Sample.with_log))
    = results Sample.with_log ++ imported.
Proof.
  apply (proj2 (proj2 (imports_touch_only_their_part Sample.no_float
                         (fun _ => None) "" Sample.odd_disk "log.csv"
                         Sample.with_log))).
  reflexivity.
Defined.


(** ** Console statistics *)

(** Comparison with a smaller positive constant. *)
Lemma SFltb_smaller_exponent ma ea mb eb x :
  (eb < ea)%Z ->
  SFltb (S754_finite false ma ea) x = true ->
  SFltb (S754_finite false mb eb) x = true.
Proof.
  intros He. unfold SFltb, SFcompare.
  destruct x as [s|s| |s m e]; try (destruct s); try discriminate;
    try reflexivity.
  destruct (Z.compare_spec ea e) as [Heq|Hlt|Hgt]; intros H;
    try discriminate H;
    (destruct (Z.compare_spec eb e); [lia|reflexivity|lia]).
Qed.

Lemma gt_5_gt_1 x : Num.gt x 5 = true -> Num.gt x 1 = true.
Proof.
  unfold Num.gt. rewrite !ltb_spec.
  replace (Prim2SF 5) with (S754_finite false 5629499534213120 (-50))
    by (vm_compute; reflexivity).
  replace (Prim2SF 1) with (S754_finite false 4503599627370496 (-52))
    by (vm_compute; reflexivity).
  apply SFltb_smaller_exponent. lia.
Qed.

Lemma gt_100_gt_50 x : Num.gt x 100 = true -> Num.gt x 50 = true.
Proof.
  unfold Num.gt. rewrite !ltb_spec.
  replace (Prim2SF 100) with (S754_finite false 7036874417766400 (-46))
    by (vm_compute; reflexivity).
  replace (Prim2SF 50) with (S754_finite false 7036874417766400 (-47))
    by (vm_compute; reflexivity).
  apply SFltb_smaller_exponent. lia.
Qed.

Section IssueFacts.
Variable fsum : list float -> float.

Lemma float_div_int_returns x n :
  (0 < n)%Z -> float_div_int x n = Return (x / int_float n)%float.
Proof.
  intros H. unfold float_div_int.
  destruct (n =? 0)%Z eqn:E; [lia|reflexivity].
Qed.

Lemma overall_loss_rate_returns stats :
  stats <> [] -> exists loss, overall_loss_rate fsum stats = Return loss.
Proof.
  intros Hne. unfold overall_loss_rate.
  rewrite float_div_int_returns; [eauto|].
  destruct stats; [contradiction|cbn; lia].
Qed.

Lemma overall_avg_latency_returns stats :
  exists lat, overall_avg_latency fsum stats = Return lat.
Proof.
  unfold overall_avg_latency.
  destruct (positive_only (map avg_latency stats)) as [|x l]; [eauto|].
  rewrite float_div_int_returns; [eauto|]. cbn; lia.
Qed.

Lemma no_high_jitter stats :
  filter (fun s => Num.gt (jitter s) 10 = true) stats = [] <->
  Forall (fun s => Num.gt (jitter s) 10 = false) stats.
Proof.
  induction stats as [|s stats IH]; [split; [constructor|reflexivity]|].
  destruct (Num.gt (jitter s) 10) eqn:Hs.
  - rewrite filter_cons_True by exact Hs. split; [discriminate|].
    intros H. apply Forall_cons in H as [H _]. congruence.
  - rewrite filter_cons_False by congruence. rewrite IH. split.
    + intros H. constructor; assumption.
    + intros H. apply Forall_cons in H as [_ H]. exact H.
Qed.

Lemma findings_shape loss lat stats :
  let f := jitter_findings stats
             (latency_findings lat (loss_findings loss (mkFindings [] []))) in
  (issues f = [] <-> recommendations f = []) /\
  (issues f = [] <->
   Num.gt loss 1 = false /\ Num.gt lat 50 = false /\
   Forall (fun s => Num.gt (jitter s) 10 = false) stats) /\
  (length (issues f) <= 3)%nat /\
  (length (issues f) <= length (recommendations f) <= 10)%nat.
Proof.
  intros f. subst f. rewrite <- no_high_jitter.
  unfold jitter_findings, latency_findings, loss_findings, add_issue.
  pose proof (gt_5_gt_1 loss) as H51.
  pose proof (gt_100_gt_50 lat) as H10050.
  destruct (Num.gt loss 5), (Num.gt loss 1), (Num.gt lat 100),
    (Num.gt lat 50),
    (filter (fun s => Num.gt (jitter s) 10 = true) stats);
    cbn; repeat split; intros; try lia; try discriminate; try reflexivity;
    try (specialize (H51 eq_refl); discriminate H51);
    try (specialize (H10050 eq_refl); discriminate H10050);
    repeat match goal with
           | H : _ /\ _ |- _ => destruct H
           end; try discriminate.
Qed.

Lemma analyze_issues_report_aux x stats :
  exists f, analyze_issues fsum (x :: stats) = Return (Some f).
Proof.
  destruct (overall_loss_rate_returns (x :: stats)) as [loss Hloss];
    [discriminate|].
  destruct (overall_avg_latency_returns (x :: stats)) as [lat Hlat].
  unfold analyze_issues. rewrite Hloss. cbn [mbind outcome_bind].
  rewrite Hlat. cbn [mbind outcome_bind]. eauto.
Qed.

End IssueFacts.

(** X13: the report of [analyze_issues].  On non-empty statistics it never
    raises; it lists no issue exactly when it lists no recommendation, and
    exactly when the average loss rate is not above 1, the average latency
    not above 50 and no server has a jitter above 10; there are at most
    three issues and at most ten recommendations, at least one per
    issue. *)
Theorem analyze_issues_report :
  forall fsum stats,
    stats <> [] ->
    exists loss lat f,
      overall_loss_rate fsum stats = Return loss /\
      overall_avg_latency fsum stats = Return lat /\
      analyze_issues fsum stats = Return (Some f) /\
      (issues f = [] <-> recommendations f = []) /\
      (issues f = [] <->
       Num.gt loss 1 = false /\ Num.gt lat 50 = false /\
       Forall (fun s => Num.gt (jitter s) 10 = false) stats) /\
      (length (issues f) <= 3)%nat /\
      (length (issues f) <= length (recommendations f) <= 10)%nat.
Proof.
  intros fsum stats Hne.
  destruct (overall_loss_rate_returns fsum stats Hne) as [loss Hloss].
  destruct (overall_avg_latency_returns fsum stats) as [lat Hlat].
  exists loss, lat,
    (jitter_findings stats
       (latency_findings lat (loss_findings loss (mkFindings [] [])))).
  split; [exact Hloss|]. split; [exact Hlat|]. split.
  - unfold analyze_issues. destruct stats; [contradiction|].
    rewrite Hloss. cbn [mbind outcome_bind]. rewrite Hlat. reflexivity.
  - apply findings_shape.
Qed.

(** One healthy server: 0 % loss, 20 ms, 1 ms of jitter. *)
Lemma analyze_issues_report_witness :
  exists loss lat f,
    overall_loss_rate Sample.first_or_zero
      [mkNetworkStats 10 0 0 19 21 20 1] = Return loss /\
    overall_avg_latency Sample.first_or_zero
      [mkNetworkStats 10 0 0 19 21 20 1] = Return lat /\
    analyze_issues Sample.first_or_zero [mkNetworkStats 10 0 0 19 21 20 1]
    = Return (Some f) /\
    (issues f = [] <-> recommendations f = []) /\
    (issues f = [] <->
     Num.gt loss 1 = false /\ Num.gt lat 50 = false /\
     Forall (fun s => Num.gt (jitter s) 10 = false)
       [mkNetworkStats 10 0 0 19 21 20 1]) /\
    (length (issues f) <= 3)%nat /\
    (length (issues f) <= length (recommendations f) <= 10)%nat.
Proof.
  apply (analyze_issues_report Sample.first_or_zero
           [mkNetworkStats 10 0 0 19 21 20 1]).
  discriminate.
Defined.

Lemma display_results_report mean stdev fsum self server_stats :
  calculate_stats mean stdev self = Return server_stats ->
  results self <> [] ->
  exists f, display_results mean stdev fsum self = Return (Some f).
Proof.
  intros Hm Hlog. unfold display_results.
  destruct (results self) as [|r log] eqn:Hresults; [contradiction|].
  destruct (stats_values_nonempty mean stdev self server_stats Hm)
    as [st [values Hv]]; [congruence|].
  rewrite Hm. cbn [mbind outcome_bind]. rewrite Hv.
  apply analyze_issues_report_aux.
Qed.

(** [display_results] raises exactly what [calculate_stats] raises, and
    only on a log that holds a result. *)
Lemma display_results_raises mean stdev fsum self e :
  display_results mean stdev fsum self = Raise e <->
  results self <> [] /\ calculate_stats mean stdev self = Raise e.
Proof.
  destruct (results self) as [|r log] eqn:Hlog.
  - unfold display_results. rewrite Hlog.
    split; [discriminate|]. intros [H _]. contradiction.
  - destruct (calculate_stats mean stdev self) as [m|e'] eqn:Hm.
    + destruct (display_results_report mean stdev fsum self m Hm) as [f Hf];
        [congruence|].
      rewrite Hf. split; [discriminate|]. intros [_ H]. discriminate H.
    + unfold display_results. rewrite Hlog, Hm. cbn [mbind outcome_bind].
      split.
      * intros [= ->]. split; [discriminate|reflexivity].
      * intros [_ [= ->]]. reflexivity.
Qed.

(** X14: [display_results] on the log of a run.  It returns without a
    report exactly when the run recorded nothing; it raises exactly what
    [calculate_stats] raises; and it returns a report whenever the
    statistics can be computed, so for every [stdev] that accepts its
    data: the analysis that follows the table cannot fail. *)
Theorem display_results_after_run :
  forall mean stdev fsum now script self,
    let after := fst (run_continuous_test now script self) in
    (display_results mean stdev fsum after = Return None <->
     results after = []) /\
    (forall e,
        display_results mean stdev fsum after = Raise e <->
        results after <> [] /\ calculate_stats mean stdev after = Raise e) /\
    (forall server_stats,
        calculate_stats mean stdev after = Return server_stats ->
        results after <> [] ->
        exists f,
          display_results mean stdev fsum after = Return (Some f)) /\
    (forall deviation,
        exists res,
          display_results mean (accepting deviation) fsum after = Return res).
Proof.
  intros mean stdev fsum now script self after. clearbody after.
  split; [|split; [|split]].
  - split.
    + intros Hnone.
      destruct (results after) as [|r log] eqn:Hlog; [reflexivity|].
      exfalso.
      destruct (calculate_stats mean stdev after) as [m|e] eqn:Hm.
      * destruct (display_results_report mean stdev fsum after m Hm)
          as [f Hf]; [congruence|].
        rewrite Hf in Hnone. discriminate Hnone.
      * assert (Hraise : display_results mean stdev fsum after = Raise e).
        { apply display_results_raises. split; [congruence|exact Hm]. }
        rewrite Hraise in Hnone. discriminate Hnone.
    + intros Hlog. unfold display_results. rewrite Hlog. reflexivity.
  - intros e. apply display_results_raises.
  - intros m Hm Hlog.
    exact (display_results_report mean stdev fsum after m Hm Hlog).
  - intros deviation.
    destruct (results after) as [|r log] eqn:Hlog.
    + exists None. unfold display_results. rewrite Hlog. reflexivity.
    + destruct (calculate_stats_accepting mean deviation after) as [m Hm].
      destruct (display_results_report mean (accepting deviation) fsum
                  after m Hm) as [f Hf]; [congruence|].
      eauto.
Qed.

Section ConsoleFacts.
Variable mean : list float -> float.

Lemma all_floats_Forall l :
  Forall is_Some l ->
  exists xs, all_floats l = Some xs /\ length xs = length l.
Proof.
  induction 1 as [|o l [x ->] _ [xs [IH Hlen]]]; [exists []; split; reflexivity|].
  exists (x :: xs). cbn. rewrite IH, Hlen. split; reflexivity.
Qed.

Lemma all_floats_None l : None ∈ l -> all_floats l = None.
Proof.
  induction l as [|o l IH]; intros H; [inversion H|].
  destruct o as [x|]; [|reflexivity].
  apply elem_of_cons in H as [H|H]; [discriminate|].
  cbn. rewrite (IH H). reflexivity.
Qed.

Lemma mean_of_returns o l :
  Forall is_Some (o :: l) -> exists x, mean_of mean (o :: l) = Return x.
Proof.
  intros H. destruct (all_floats_Forall _ H) as [xs [Hxs Hlen]].
  unfold mean_of. rewrite Hxs. destruct xs; [discriminate|]. cbn. eauto.
Qed.

Lemma mean_of_raises l : None ∈ l -> mean_of mean l = Raise TypeError.
Proof. intros H. unfold mean_of. rewrite (all_floats_None l H). reflexivity. Qed.

Lemma averageable_filter (P : PingResult -> Prop)
    `{!forall r, Decision (P r)} l :
  forallb averageable l = true -> forallb averageable (filter P l) = true.
Proof.
  induction l as [|r l IH]; [reflexivity|]. cbn [forallb].
  intros [Hr Hl]%andb_true_iff.
  destruct (decide (P r)) as [Hp|Hp].
  - rewrite filter_cons_True by exact Hp. cbn [forallb].
    rewrite Hr, (IH Hl). reflexivity.
  - rewrite filter_cons_False by exact Hp. exact (IH Hl).
Qed.

Lemma averageable_latencies l :
  forallb averageable l = true ->
  Forall is_Some (map latency (filter (fun r => packet_loss r = false) l)).
Proof.
  induction l as [|r l IH]; [constructor|]. cbn [forallb].
  intros [Hr Hl]%andb_true_iff.
  destruct (packet_loss r) eqn:Hloss.
  - rewrite filter_cons_False by congruence. exact (IH Hl).
  - rewrite filter_cons_True by exact Hloss. cbn [map]. constructor.
    + unfold averageable in Hr. rewrite Hloss in Hr.
      apply bool_decide_eq_true in Hr. exact Hr.
    + exact (IH Hl).
Qed.

Lemma not_averageable_latencies l :
  forallb averageable l = false ->
  None ∈ map latency (filter (fun r => packet_loss r = false) l).
Proof.
  induction l as [|r l IH]; [discriminate|]. cbn [forallb].
  intros H. unfold averageable at 1 in H.
  destruct (packet_loss r) eqn:Hloss.
  - rewrite filter_cons_False by congruence. exact (IH H).
  - rewrite filter_cons_True by exact Hloss. cbn [map].
    destruct (latency r) as [x|] eqn:Hlat.
    + right. apply IH. rewrite bool_decide_eq_true_2 in H by eauto. exact H.
    + left.
Qed.

Lemma last_five_Forall {A} (P : A -> Prop) (l : list A) :
  Forall P l -> Forall P (last_five l).
Proof.
  intros H. unfold last_five.
  destruct (5 <=? length l)%nat; [apply Forall_drop|]; exact H.
Qed.

Lemma true_div_returns a b :
  (0 < b)%Z -> exists q, Num.true_div a b = Return q.
Proof.
  intros H. unfold Num.true_div.
  destruct (b =? 0)%Z eqn:E; [lia|eauto].
Qed.

Lemma realtime_line_returns log :
  forallb averageable log = true -> realtime_line mean log = Return tt.
Proof.
  intros Hlog. unfold realtime_line.
  destruct (0 <? Z.of_nat (length log))%Z eqn:Hpos; [|reflexivity].
  destruct (true_div_returns
              (Z.of_nat (length (filter (fun r => packet_loss r = true) log)))
              (Z.of_nat (length log))) as [q ->]; [lia|].
  cbn [mbind outcome_bind].
  pose proof (averageable_latencies log Hlog) as Hsome.
  destruct (filter (fun r => packet_loss r = false) log) as [|p ok] eqn:Hok;
    [reflexivity|].
  destruct (mean_of_returns _ _ Hsome) as [avg Havg].
  change (mean_of mean (map latency (p :: ok)) = Return avg) in Havg.
  lazy beta iota. rewrite Havg. cbn [mbind outcome_bind].
  pose proof (last_five_Forall is_Some _ Hsome) as Hrecent.
  assert (Hmap : forall l : list PingResult,
             map latency (last_five l) = last_five (map latency l)).
  { intros l. unfold last_five. rewrite length_map.
    destruct (5 <=? length l)%nat; [|reflexivity].
    generalize (length l - 5)%nat as n. intros n. revert l.
    induction n as [|n IH]; intros [|x l]; try reflexivity. apply IH. }
  rewrite <- Hmap in Hrecent.
  destruct (last_five (p :: ok)) as [|p' recent]; [reflexivity|].
  destruct (mean_of_returns _ _ Hrecent) as [avg' Havg'].
  change (mean_of mean (map latency (p' :: recent)) = Return avg') in Havg'.
  lazy beta iota. rewrite Havg'. reflexivity.
Qed.

Lemma realtime_line_raises r log :
  forallb averageable (r :: log) = false ->
  realtime_line mean (r :: log) = Raise TypeError.
Proof.
  intros Hlog. unfold realtime_line.
  destruct (0 <? Z.of_nat (length (r :: log)))%Z eqn:Hpos;
    [|apply Z.ltb_ge in Hpos; cbn [length] in Hpos; lia].
  destruct (true_div_returns
              (Z.of_nat (length (filter (fun r => packet_loss r = true)
                                   (r :: log))))
              (Z.of_nat (length (r :: log)))) as [q ->]; [lia|].
  cbn [mbind outcome_bind].
  pose proof (not_averageable_latencies _ Hlog) as Hnone.
  destruct (filter (fun r => packet_loss r = false) (r :: log)) as [|p ok];
    [inversion Hnone|].
  rewrite (mean_of_raises _ Hnone). reflexivity.
Qed.

Lemma intermediate_row_returns log srv :
  forallb averageable log = true -> intermediate_row mean log srv = Return tt.
Proof.
  intros Hlog. unfold intermediate_row.
  destruct (rate_returns
              (Z.of_nat (length (filter (fun r => packet_loss r = true)
                                   (filter (fun r => server r = srv) log))))
              (Z.of_nat (length (filter (fun r => server r = srv) log))))
    as [rate ->].
  cbn [mbind outcome_bind].
  pose proof (averageable_latencies _
                (averageable_filter (fun r => server r = srv) log Hlog))
    as Hsome.
  destruct (map latency
              (filter (fun r => packet_loss r = false)
                 (filter (fun r => server r = srv) log))) as [|o l];
    [reflexivity|].
  destruct (mean_of_returns _ _ Hsome) as [avg ->]. reflexivity.
Qed.

Lemma intermediate_rows_return log servers :
  forallb averageable log = true ->
  intermediate_rows mean log servers = Return tt.
Proof.
  intros Hlog. induction servers as [|srv servers IH]; [reflexivity|].
  cbn [intermediate_rows]. rewrite (intermediate_row_returns log srv Hlog).
  exact IH.
Qed.

Lemma display_intermediate_returns log :
  forallb averageable log = true ->
  _display_intermediate_stats mean log = Return tt.
Proof.
  intros Hlog. unfold _display_intermediate_stats.
  destruct log; [reflexivity|]. apply intermediate_rows_return. exact Hlog.
Qed.

Lemma display_realtime_cases log elapsed :
  _display_realtime_stats mean log elapsed
  = if forallb averageable log then Return tt else Raise TypeError.
Proof.
  destruct (forallb averageable log) eqn:Hlog.
  - unfold _display_realtime_stats. destruct log as [|r log]; [reflexivity|].
    rewrite (realtime_line_returns _ Hlog). cbn [mbind outcome_bind].
    destruct ((0 <? elapsed)%Z && (elapsed mod 300 =? 0)%Z);
      [apply display_intermediate_returns; exact Hlog|reflexivity].
  - unfold _display_realtime_stats. destruct log as [|r log]; [discriminate|].
    rewrite (realtime_line_raises _ _ Hlog). reflexivity.
Qed.

End ConsoleFacts.

Lemma all_averageable l :
  Forall (fun r => averageable r = true) l -> forallb averageable l = true.
Proof.
  induction 1 as [|r l Hr _ IH]; [reflexivity|].
  cbn [forallb]. rewrite Hr, IH. reflexivity.
Qed.

Lemma run_log_averageable now script self :
  forallb averageable (results (fst (run_continuous_test now script self)))
  = true.
Proof.
  assert (Hall : Forall (fun r => averageable r = true)
                   (results (fst (run_continuous_test now script self))));
    [|exact (all_averageable _ Hall)].
  rewrite run_continuous_test_results.
  destruct (Schedule.getitem (current_region self) VALORANT_SERVERS);
    [|constructor].
  apply (while_loop_Forall ping_server (fun r => averageable r = true));
    [|constructor].
  intros t s [d| |]; reflexivity.
Qed.


(** X16: the statistics printed during a run never stop it: on the log
    of [run_continuous_test], whatever the script of replies and however
    far the run got, [_display_realtime_stats] returns. *)
Theorem run_statistics_never_raise :
  forall mean now script self elapsed,
    _display_realtime_stats mean
      (results (fst (run_continuous_test now script self))) elapsed
    = Return tt.
Proof.
  intros mean now script self elapsed.
  rewrite display_realtime_cases, run_log_averageable. reflexivity.
Qed.

(** ** Demo data *)


Lemma demo_result_fields ts srv d :
  let r := demo_result ts srv d in
  timestamp r = ts /\ server r = srv /\
  loss_iff_no_latency r /\ timeout r = packet_loss r.
Proof.
  unfold demo_result, loss_iff_no_latency.
  destruct (Num.lt (loss_draw d) 0.02); [|destruct (Num.lt (spike_draw d) 0.05)];
    cbn; repeat split; congruence.
Qed.

Lemma demo_second_servers ts servers :
  forall draws : nat -> demo_draw,
    map server (imap (fun i srv => demo_result ts srv (draws i)) servers)
    = servers.
Proof.
  induction servers as [|srv servers IH]; intros draws; [reflexivity|].
  cbn [imap map]. f_equal.
  - apply demo_result_fields.
  - exact (IH (fun i => draws (S i))).
Qed.


Lemma demo_seconds_servers (stamp : nat -> string)
    (draws : nat -> nat -> demo_draw) (servers : list string)
    (seconds : list nat) :
  map server
    (flat_map (fun second =>
                 imap (fun i srv => demo_result (stamp second) srv
                                      (draws second i)) servers) seconds)
  = flat_map (fun _ => servers) seconds.
Proof.
  induction seconds as [|s seconds IH]; [reflexivity|].
  cbn [flat_map]. rewrite map_app, IH.
  rewrite (demo_second_servers (stamp s) servers (draws s)). reflexivity.
Qed.


Lemma repeated_servers_length (servers : list string) (seconds : list nat) :
  length (flat_map (fun _ => servers) seconds)
  = (length seconds * length servers)%nat.
Proof.
  induction seconds as [|s seconds IH]; [reflexivity|].
  cbn [flat_map length]. rewrite length_app, IH. lia.
Qed.


Lemma demo_data_length stamp draws duration_minutes region servers :
  Schedule.getitem region VALORANT_SERVERS = Some servers ->
  length (generate_demo_data stamp draws duration_minutes region)
  = (duration_minutes * 60 * length servers)%nat.
Proof.
  intros Hregion. unfold generate_demo_data. rewrite Hregion.
  rewrite <- (length_map server), demo_seconds_servers,
    repeated_servers_length, length_seq. reflexivity.
Qed.

Lemma reference_demo_of_service ts service server_ip d :
  of_service service (reference_demo_result ts (service, server_ip) d) = true.
Proof.
  unfold of_service, reference_demo_result.
  destruct (Num.lt (loss_draw d) 0.005); cbn [server];
    rewrite <- string_append_assoc; apply prefix_app.
Qed.

Lemma reference_demo_labelled stamp draws duration_minutes :
  Forall (fun r => exists service,
                     service ∈ map fst REFERENCE_SERVERS /\
                     of_service service r = true)
    (generate_reference_demo_data stamp draws duration_minutes).
Proof.
  unfold generate_reference_demo_data.
  induction (seq 0 (duration_minutes * 60)) as [|s seconds IH];
    [constructor|].
  cbn [flat_map]. apply Forall_app. split; [|exact IH].
  unfold demo_reference_servers. cbn [imap].
  repeat (apply Forall_cons; split); try apply Forall_nil;
    eexists; (split; [|apply reference_demo_of_service]);
    unfold REFERENCE_SERVERS; cbn [map fst]; repeat constructor.
Qed.

Lemma reference_seconds_length (stamp : nat -> string)
    (draws : nat -> nat -> demo_draw) (seconds : list nat) :
  length
    (flat_map (fun second =>
                 imap (fun i entry => reference_demo_result (stamp second)
                                        entry (draws second i))
                      demo_reference_servers) seconds)
  = (length seconds * 4)%nat.
Proof.
  induction seconds as [|s seconds IH]; [reflexivity|].
  cbn [flat_map length]. rewrite length_app, IH. cbn. lia.
Qed.

Lemma reference_demo_length stamp draws duration_minutes :
  length (generate_reference_demo_data stamp draws duration_minutes)
  = (duration_minutes * 60 * 4)%nat.
Proof.
  unfold generate_reference_demo_data.
  rewrite reference_seconds_length, length_seq. reflexivity.
Qed.

(** X18: the demo can always show its report.  For any random draws and
    any positive durations, the tracker [run_demo] fills with the logs of
    [generate_demo_data] for Tokyo and of [generate_reference_demo_data]
    gets a report from [display_results], and its comparison with the
    reference services is not an error: every generated reference result
    carries the label of a service of [REFERENCE_SERVERS].  This holds
    whenever the statistics of the generated log can be computed, and so
    for every [stdev] that accepts its data. *)
Theorem run_demo_reports :
  forall mean fsum stamp draws reference_stamp reference_draws start
         duration reference_duration,
    (0 < duration)%nat ->
    (0 < reference_duration)%nat ->
    (forall stdev server_stats,
        calculate_stats mean stdev
          (run_demo_tracker
             (generate_demo_data stamp draws duration "Tokyo (Japan)")
             (generate_reference_demo_data reference_stamp reference_draws
                reference_duration) start)
        = Return server_stats ->
        (exists f,
            display_results mean stdev fsum
              (run_demo_tracker
                 (generate_demo_data stamp draws duration "Tokyo (Japan)")
                 (generate_reference_demo_data reference_stamp
                    reference_draws reference_duration) start)
            = Return (Some f)) /\
        (exists c,
            compare_with_reference_servers mean stdev
              (run_demo_tracker
                 (generate_demo_data stamp draws duration "Tokyo (Japan)")
                 (generate_reference_demo_data reference_stamp
                    reference_draws reference_duration) start)
            = Return (Compared c))) /\
    (forall deviation,
        (exists f,
            display_results mean (accepting deviation) fsum
              (run_demo_tracker
                 (generate_demo_data stamp draws duration "Tokyo (Japan)")
                 (generate_reference_demo_data reference_stamp
                    reference_draws reference_duration) start)
            = Return (Some f)) /\
        (exists c,
            compare_with_reference_servers mean (accepting deviation)
              (run_demo_tracker
                 (generate_demo_data stamp draws duration "Tokyo (Japan)")
                 (generate_reference_demo_data reference_stamp
                    reference_draws reference_duration) start)
            = Return (Compared c))).
Proof.
  intros mean fsum stamp draws rstamp rdraws start d rd Hd Hrd.
  set (self := run_demo_tracker _ _ start).
  assert (Hlog : results self <> []).
  { intros Hnil. apply (f_equal (@length _)) in Hnil.
    change (results self)
      with (generate_demo_data stamp draws d "Tokyo (Japan)") in Hnil.
    rewrite (demo_data_length stamp draws d "Tokyo (Japan)"
               ["52.77.252.242"; "13.230.149.157"] eq_refl) in Hnil.
    cbn [length] in Hnil. lia. }
  assert (Href : reference_results self <> []).
  { intros Hnil. apply (f_equal (@length _)) in Hnil.
    change (reference_results self)
      with (generate_reference_demo_data rstamp rdraws rd) in Hnil.
    rewrite reference_demo_length in Hnil. cbn [length] in Hnil. lia. }
  assert (Hany : forall stdev server_stats,
             calculate_stats mean stdev self = Return server_stats ->
             (exists f,
                 display_results mean stdev fsum self = Return (Some f)) /\
             (exists c,
                 compare_with_reference_servers mean stdev self
                 = Return (Compared c))).
  { intros stdev m Hm. split.
    - exact (display_results_report mean stdev fsum self m Hm Hlog).
    - destruct (compare_returns mean stdev self m Hm) as [res Hres].
      destruct (compare_cases mean stdev self res Hres) as [Herr _].
      destruct res as [message|c]; [|eauto].
      exfalso.
      destruct (proj1 Herr (ex_intro _ message eq_refl)) as [H|[H|H]];
        [contradiction | contradiction |].
      pose proof (reference_demo_labelled rstamp rdraws rd) as Hlab.
      change (generate_reference_demo_data rstamp rdraws rd)
        with (reference_results self) in Hlab.
      destruct (reference_results self) as [|r refs]; [contradiction|].
      apply Forall_cons in Hlab as [[service [Hin Hof]] _].
      rewrite (H service Hin r) in Hof by constructor. discriminate Hof. }
  split; [exact Hany|].
  intros deviation.
  destruct (calculate_stats_accepting mean deviation self) as [m Hm].
  exact (Hany (accepting deviation) m Hm).
Qed.

(** One minute of each, every draw the same. *)
Lemma run_demo_reports_witness :
  (exists f,
      display_results Sample.first_or_zero
        (accepting Sample.first_or_zero) Sample.first_or_zero
        (run_demo_tracker
           (generate_demo_data (fun _ => "2024-01-01T00:00:00")
              (fun _ _ => mkDemoDraw 20 0.5 0.5 1) 1 "Tokyo (Japan)")
           (generate_reference_demo_data (fun _ => "2024-01-01T00:00:00")
              (fun _ _ => mkDemoDraw 20 0.5 0.5 1) 1)
           "2024-01-01T00:00:00")
      = Return (Some f)) /\
  (exists c,
      compare_with_reference_servers Sample.first_or_zero
        (accepting Sample.first_or_zero)
        (run_demo_tracker
           (generate_demo_data (fun _ => "2024-01-01T00:00:00")
              (fun _ _ => mkDemoDraw 20 0.5 0.5 1) 1 "Tokyo (Japan)")
           (generate_reference_demo_data (fun _ => "2024-01-01T00:00:00")
              (fun _ _ => mkDemoDraw 20 0.5 0.5 1) 1)
           "2024-01-01T00:00:00")
      = Return (Compared c)).
Proof.
  refine (proj2 (run_demo_reports Sample.first_or_zero
                   Sample.first_or_zero
                   (fun _ => "2024-01-01T00:00:00")
                   (fun _ _ => mkDemoDraw 20 0.5 0.5 1)
                   (fun _ => "2024-01-01T00:00:00")
                   (fun _ _ => mkDemoDraw 20 0.5 0.5 1)
                   "2024-01-01T00:00:00" 1%nat 1%nat _ _)
            Sample.first_or_zero); lia.
Defined.
